(** * crediTask backend: task lifecycle, project aggregate, notification mailbox

    A shallow embedding of the request handlers of
    [backend/app/api/v1/endpoints/{tasks,projects,notifications}.py] over the
    tables declared in [backend/app/models/*.py] and the request schemas of
    [backend/app/schemas/*.py].

    The relational store is a record of tables, each a list of rows.  A
    handler is a computation in a state-and-exception monad over the store:
    it either returns a value or raises, and the store it leaves behind is
    the committed state of the database. *)

From Stdlib Require Import ZArith Floats.PrimFloat.
From stdpp Require Import base option list strings gmap pretty.
From stdpp Require Import sorting.

Local Open Scope Z_scope.
Local Open Scope string_scope.

(** ** Values *)

(** A [string] stands for a text that a PostgreSQL [text] or [varchar] column
    holds, that is, one without the character U+0000; the handlers copy and
    compare texts and never build one. *)

(** [uuid.UUID]: the 128-bit value.  The handlers only compare identifiers. *)
Definition UUID : Type := N.
Bind Scope N_scope with UUID.

(** [DateTime(timezone=True)]: an instant, in microseconds since the epoch.
    The datetime of a request is an instant as well, that is, it comes with
    its UTC offset; two datetimes are equal when they are the same
    instant. *)
Definition datetime : Type := Z.

(** [Float] columns and [float] schema fields are binary64 values; no handler
    does arithmetic on them. *)
Abbreviation float := PrimFloat.float.

(** Python's [==] on two values of a [Float] attribute: IEEE 754 equality on
    numbers, so that [0.0 == -0.0] and a NaN equals nothing, not even itself;
    [None] equals [None] only. *)
Definition float_eq (a b : option float) : bool :=
  match a, b with
  | Some x, Some y => PrimFloat.eqb x y
  | None, None => true
  | _, _ => false
  end.

(** An [Integer] column is a PostgreSQL [int4]; a Python [int] is unbounded.
    The driver binds an integer to such a column only if it fits 32 bits
    (two's complement); NULL is bound as it is. *)
Definition int32 (v : option Z) : bool :=
  match v with
  | None => true
  | Some z => bool_decide (-2147483648 ≤ z ≤ 2147483647)%Z
  end.

(** A schema field of a pydantic model: either left out of the request body
    ([Unset]) or given a value ([Given v]); for an [Optional[...]] field the
    given value may be the JSON null, [Given None]. *)
Inductive field (A : Type) : Type :=
| Unset : field A
| Given (v : A) : field A.
Arguments Unset {A}.
Arguments Given {A} v.

(** The value pydantic reports for a field: what was given, else the default
    the schema declares. *)
Definition value_or {A} (default : A) (f : field A) : A :=
  match f with
  | Unset => default
  | Given v => v
  end.

(** Python truthiness of an optional string query parameter
    ([if project_id:], [if status:]): [None] and the empty string are false. *)
Definition truthy (s : option string) : bool :=
  match s with
  | None => false
  | Some s => bool_decide (s ≠ "")
  end.

(** ** Exceptions and the handler monad *)

Module status.
Definition HTTP_400_BAD_REQUEST : Z := 400.
Definition HTTP_403_FORBIDDEN : Z := 403.
Definition HTTP_404_NOT_FOUND : Z := 404.
End status.

(** [HTTPException] is raised by the handlers, the others by the session:
    - [MultipleResultsFound]: [scalar_one_or_none] on two or more rows;
    - [InvalidRequestError]: [refresh] of an object whose row is gone;
    - [AttributeError]: [task.project.client_id] when the relationship
      loaded [None];
    - [IntegrityError]: the store refuses a flush (NOT NULL, primary key or
      foreign key);
    - [DataError]: a value of a statement is refused, by the driver when it
      binds it (an integer outside the range of its column or of the
      parameter of an OFFSET or LIMIT) or by the store (negative OFFSET or
      LIMIT). *)
Inductive exn : Type :=
| HTTPException (status_code : Z) (detail : string)
| MultipleResultsFound
| InvalidRequestError
| AttributeError
| IntegrityError
| DataError.

Inductive result (A : Type) : Type :=
| Ok (a : A)
| Raise (e : exn).
Arguments Ok {A} a.
Arguments Raise {A} e.

(** ** The models ([app/models]) *)

(** A nullable column is an [option].  A NOT NULL column that a handler can
    assign [None] to (through a partial update) is an [option] as well, as
    the attribute of the Python object is; the store refuses the row when it
    is flushed ([not_null] below). *)

Module User.
Record t : Type := mk {
  id : UUID;
  email : string;
  name : option string;
  hashed_password : string;
  role : string;
  skills : option (list string);
  rating : option float;
  wallet_balance : option float;
  avatar_url : option string;
  tier : option string;
  onboarding_completed : option bool;
  is_active : option bool;
  created_at : datetime;
  updated_at : datetime
}.
End User.

Module Project.
Record t : Type := mk {
  id : UUID;
  client_id : UUID;
  title : option string;         (* nullable=False *)
  description : option string;   (* nullable=False *)
  tags : option (list string);
  budget : option float;         (* nullable=False *)
  status : option string;
  created_at : datetime;
  updated_at : datetime
}.

Definition not_null (p : t) : bool :=
  bool_decide (is_Some (title p)) && bool_decide (is_Some (description p))
  && bool_decide (is_Some (budget p)).

Definition set_title v (p : t) : t :=
  let '(mk i c _ d g b s ca ua) := p in mk i c v d g b s ca ua.
Definition set_description v (p : t) : t :=
  let '(mk i c ti _ g b s ca ua) := p in mk i c ti v g b s ca ua.
Definition set_tags v (p : t) : t :=
  let '(mk i c ti d _ b s ca ua) := p in mk i c ti d v b s ca ua.
Definition set_budget v (p : t) : t :=
  let '(mk i c ti d g _ s ca ua) := p in mk i c ti d g v s ca ua.
Definition set_status v (p : t) : t :=
  let '(mk i c ti d g b _ ca ua) := p in mk i c ti d g b v ca ua.
Definition set_updated_at v (p : t) : t :=
  let '(mk i c ti d g b s ca _) := p in mk i c ti d g b s ca v.
End Project.

Module Task.
Record t : Type := mk {
  id : UUID;
  project_id : UUID;
  title : option string;         (* nullable=False *)
  description : option string;   (* nullable=False *)
  weight : option Z;
  assignee_id : option UUID;
  status : option string;
  payout : option float;         (* nullable=False *)
  deadline : option datetime;
  pricing_type : option string;
  hourly_rate : option float;
  estimated_hours : option Z;
  required_skills : option (list string);
  auto_assign : option bool;
  application_window_minutes : option Z;
  created_at : datetime;
  updated_at : datetime
}.

Definition not_null (x : t) : bool :=
  bool_decide (is_Some (title x)) && bool_decide (is_Some (description x))
  && bool_decide (is_Some (payout x)).

(** The [Integer] columns hold 32-bit values. *)
Definition in_range (x : t) : bool :=
  int32 (weight x) && int32 (estimated_hours x)
  && int32 (application_window_minutes x).

Definition set_title v (x : t) : t :=
  let '(mk i p _ d w a s po dl pt hr eh rs aa aw ca ua) := x in
  mk i p v d w a s po dl pt hr eh rs aa aw ca ua.
Definition set_description v (x : t) : t :=
  let '(mk i p ti _ w a s po dl pt hr eh rs aa aw ca ua) := x in
  mk i p ti v w a s po dl pt hr eh rs aa aw ca ua.
Definition set_weight v (x : t) : t :=
  let '(mk i p ti d _ a s po dl pt hr eh rs aa aw ca ua) := x in
  mk i p ti d v a s po dl pt hr eh rs aa aw ca ua.
Definition set_assignee_id v (x : t) : t :=
  let '(mk i p ti d w _ s po dl pt hr eh rs aa aw ca ua) := x in
  mk i p ti d w v s po dl pt hr eh rs aa aw ca ua.
Definition set_status v (x : t) : t :=
  let '(mk i p ti d w a _ po dl pt hr eh rs aa aw ca ua) := x in
  mk i p ti d w a v po dl pt hr eh rs aa aw ca ua.
Definition set_payout v (x : t) : t :=
  let '(mk i p ti d w a s _ dl pt hr eh rs aa aw ca ua) := x in
  mk i p ti d w a s v dl pt hr eh rs aa aw ca ua.
Definition set_deadline v (x : t) : t :=
  let '(mk i p ti d w a s po _ pt hr eh rs aa aw ca ua) := x in
  mk i p ti d w a s po v pt hr eh rs aa aw ca ua.
Definition set_pricing_type v (x : t) : t :=
  let '(mk i p ti d w a s po dl _ hr eh rs aa aw ca ua) := x in
  mk i p ti d w a s po dl v hr eh rs aa aw ca ua.
Definition set_hourly_rate v (x : t) : t :=
  let '(mk i p ti d w a s po dl pt _ eh rs aa aw ca ua) := x in
  mk i p ti d w a s po dl pt v eh rs aa aw ca ua.
Definition set_estimated_hours v (x : t) : t :=
  let '(mk i p ti d w a s po dl pt hr _ rs aa aw ca ua) := x in
  mk i p ti d w a s po dl pt hr v rs aa aw ca ua.
Definition set_required_skills v (x : t) : t :=
  let '(mk i p ti d w a s po dl pt hr eh _ aa aw ca ua) := x in
  mk i p ti d w a s po dl pt hr eh v aa aw ca ua.
Definition set_auto_assign v (x : t) : t :=
  let '(mk i p ti d w a s po dl pt hr eh rs _ aw ca ua) := x in
  mk i p ti d w a s po dl pt hr eh rs v aw ca ua.
Definition set_updated_at v (x : t) : t :=
  let '(mk i p ti d w a s po dl pt hr eh rs aa aw ca _) := x in
  mk i p ti d w a s po dl pt hr eh rs aa aw ca v.
End Task.

Module Notification.
Record t : Type := mk {
  id : UUID;
  user_id : UUID;
  title : string;
  message : string;
  type : option string;
  read : option bool;
  created_at : datetime;
  updated_at : datetime
}.

Definition set_read v (n : t) : t :=
  let '(mk i u ti m ty _ ca ua) := n in mk i u ti m ty v ca ua.
Definition set_updated_at v (n : t) : t :=
  let '(mk i u ti m ty r ca _) := n in mk i u ti m ty r ca v.
End Notification.

(** ** The store *)

Record Store : Type := mkStore {
  users : list User.t;
  projects : list Project.t;
  tasks : list Task.t;
  notifications : list Notification.t
}.

(** A handler run: from the store it finds to what it returns or raises and
    the store it leaves.  An exception ends the run where it is raised. *)
Definition M (A : Type) : Type := Store → result A * Store.

Definition ret {A} (a : A) : M A := λ db, (Ok a, db).
Definition raise {A} (e : exn) : M A := λ db, (Raise e, db).
Definition bind {A B} (c : M A) (k : A → M B) : M B :=
  λ db, match c db with
        | (Ok a, db') => k a db'
        | (Raise e, db') => (Raise e, db')
        end.

Notation "x <- c ;; k" := (bind c (λ x, k))
  (at level 100, c at next level, right associativity).
Notation "c ;; k" := (bind c (λ _, k))
  (at level 100, right associativity).

(** ** Statements and results ([AsyncSession.execute], [Result]) *)

(** [await db.execute(select(...).where(...))]: a read of the store; for a
    filtered [select] the rows of a table that satisfy the predicate, in
    table order. *)
Definition execute {A} (select : Store → A) : M A :=
  λ db, (Ok (select db), db).

Definition scalar_one_or_none {A} (rows : list A) : M (option A) :=
  match rows with
  | [] => ret None
  | [x] => ret (Some x)
  | _ :: _ :: _ => raise MultipleResultsFound
  end.

(** [query.offset(skip).limit(limit)]: OFFSET and LIMIT are parameters of
    the statement, which the dialect binds as [INTEGER]
    ([LIMIT $1::INTEGER OFFSET $2::INTEGER]).  The driver refuses to bind an
    integer that does not fit 32 bits, and PostgreSQL rejects a negative
    OFFSET or LIMIT. *)
Definition offset_limit {A} (skip limit : Z) (rows : list A) : M (list A) :=
  if bool_decide (skip < 0 ∨ limit < 0
                  ∨ 2147483647 < skip ∨ 2147483647 < limit)
  then raise DataError
  else ret (take (Z.to_nat limit) (drop (Z.to_nat skip) rows)).

(** The many-to-one relationship [Task.project], as [selectinload] fills it:
    the project row the task's [project_id] points to, if any. *)
Definition Task_project (x : Task.t) (db : Store) : option Project.t :=
  head (filter (λ p, Project.id p = Task.project_id x) (projects db)).

(** [project.client_id] on the loaded relationship: [None] has no
    attributes. *)
Definition client_id_of (project : option Project.t) : M UUID :=
  match project with
  | Some p => ret (Project.client_id p)
  | None => raise AttributeError
  end.

(** ** The unit of work ([db.add], attribute assignment, [db.delete],
       [db.commit]) *)

(** What the session has pending when the handler commits. *)
Inductive write : Type :=
| InsertTask (x : Task.t)                  (* db.add(db_task) *)
| UpdateTask (x : Task.t)                  (* a loaded task was assigned to *)
| UpdateProject (p : Project.t)            (* a loaded project was assigned to *)
| DeleteProject (p : Project.t)            (* db.delete(project) *)
| UpdateNotification (n : Notification.t). (* a loaded notification was assigned to *)

Definition set_projects (v : list Project.t) (db : Store) : Store :=
  mkStore (users db) v (tasks db) (notifications db).
Definition set_tasks (v : list Task.t) (db : Store) : Store :=
  mkStore (users db) (projects db) v (notifications db).
Definition set_notifications (v : list Notification.t) (db : Store) : Store :=
  mkStore (users db) (projects db) (tasks db) v.

(** [ForeignKey("users.id")] on a nullable column. *)
Definition fk_users (db : Store) (v : option UUID) : bool :=
  match v with
  | None => true
  | Some u => bool_decide (u ∈ User.id <$> users db)
  end.

(** The constraints [models/task.py] declares on a row of [tasks], other
    than the primary key: the NOT NULL columns, the range of the [Integer]
    columns and the two foreign keys. *)
Definition task_ok (db : Store) (x : Task.t) : bool :=
  Task.not_null x
  && Task.in_range x
  && bool_decide (Task.project_id x ∈ Project.id <$> projects db)
  && fk_users db (Task.assignee_id x).

(** The constraints [models/project.py] declares on a row of [projects]. *)
Definition project_ok (db : Store) (p : Project.t) : bool :=
  Project.not_null p
  && bool_decide (Project.client_id p ∈ User.id <$> users db).

(** The constraint [models/notification.py] declares on a row of
    [notifications] beyond its plain NOT NULL columns. *)
Definition notification_ok (db : Store) (n : Notification.t) : bool :=
  bool_decide (Notification.user_id n ∈ User.id <$> users db).

(** [UPDATE ... SET ... WHERE id = pk]: the row with the primary key of [x]
    takes the values of [x]. *)
Definition update_row {A} (key : A → UUID) (x : A) (rows : list A) : list A :=
  (λ r, if decide (key r = key x) then x else r) <$> rows.

(** One pending change, as the statement the flush emits; [None] when the
    store refuses it.  [now] is the server's clock ([func.now()]).
    - INSERT: the row is new, so its primary key must be free.
    - UPDATE ... WHERE id = pk: [onupdate=func.now()] stamps [updated_at].
    - DELETE of a project: [cascade="all, delete-orphan"] on [Project.tasks]
      deletes the tasks of the project first. *)
Definition flush (now : datetime) (w : write) (db : Store) : option Store :=
  match w with
  | InsertTask x =>
      if task_ok db x && bool_decide (Task.id x ∉ Task.id <$> tasks db)
      then Some (set_tasks (tasks db ++ [x]) db)
      else None
  | UpdateTask x =>
      if task_ok db x
      then Some (set_tasks
                   (update_row Task.id (Task.set_updated_at now x) (tasks db)) db)
      else None
  | UpdateProject p =>
      if project_ok db p
      then Some (set_projects
                   (update_row Project.id (Project.set_updated_at now p)
                      (projects db)) db)
      else None
  | DeleteProject p =>
      let db := set_tasks
                  (filter (λ x, Task.project_id x ≠ Project.id p) (tasks db)) db in
      Some (set_projects
              (filter (λ r, Project.id r ≠ Project.id p) (projects db)) db)
  | UpdateNotification n =>
      if notification_ok db n
      then Some (set_notifications
                   (update_row Notification.id
                      (Notification.set_updated_at now n) (notifications db))
                   db)
      else None
  end.

Fixpoint flush_all (now : datetime) (ws : list write) (db : Store) : option Store :=
  match ws with
  | [] => Some db
  | w :: ws =>
      match flush now w db with
      | Some db' => flush_all now ws db'
      | None => None
      end
  end.

(** The statement of [w] has an integer the driver cannot bind. *)
Definition unbindable (w : write) : bool :=
  match w with
  | InsertTask x | UpdateTask x => negb (Task.in_range x)
  | _ => false
  end.

(** The exception of a flush that fails, raised at the first statement that
    is refused: [DataError] by the driver if it cannot bind a value of the
    statement, which it finds before the statement reaches the store, else
    [IntegrityError] by the store. *)
Fixpoint refusal (now : datetime) (ws : list write) (db : Store) : exn :=
  match ws with
  | [] => IntegrityError
  | w :: ws =>
      match flush now w db with
      | Some db' => refusal now ws db'
      | None => if unbindable w then DataError else IntegrityError
      end
  end.

(** [await db.commit()]: the pending changes are flushed in one transaction;
    if one of them is refused the transaction is rolled back and the
    exception propagates. *)
Definition commit (now : datetime) (ws : list write) : M () :=
  λ db, match flush_all now ws db with
        | Some db' => (Ok (), db')
        | None => (Raise (refusal now ws db), db)
        end.

(** [await db.refresh(obj)]: the object is reloaded from its row. *)
Definition refresh_task (x : Task.t) : M Task.t :=
  rows <- execute (λ db, filter (λ r, Task.id r = Task.id x) (tasks db)) ;;
  match rows with
  | [r] => ret r
  | _ => raise InvalidRequestError
  end.

Definition refresh_project (p : Project.t) : M Project.t :=
  rows <- execute (λ db, filter (λ r, Project.id r = Project.id p) (projects db)) ;;
  match rows with
  | [r] => ret r
  | _ => raise InvalidRequestError
  end.

(** ** The request schemas ([app/schemas]) *)

(** The items of [model.dict(exclude_unset=True)]: one per field the request
    body set, none for a field it left out. *)
Definition item_of {A I} (key : A → I) (f : field A) : list I :=
  match f with
  | Unset => []
  | Given v => [key v]
  end.

Module TaskCreate.
(** [TaskBase] and [project_id].  [title], [description], [payout] and
    [project_id] are required; pydantic refuses a null for a field that is
    not [Optional]. *)
Record t : Type := mk {
  title : string;
  description : string;
  weight : field Z;                            (* int = 1 *)
  payout : float;
  deadline : field (option datetime);          (* Optional[datetime] = None *)
  pricing_type : field string;                 (* str = "fixed" *)
  hourly_rate : field (option float);          (* Optional[float] = None *)
  estimated_hours : field (option Z);          (* Optional[int] = None *)
  required_skills : field (option (list string)); (* Optional[List[str]] = [] *)
  auto_assign : field bool;                    (* bool = False *)
  application_window_minutes : field Z;        (* int = 60 *)
  project_id : UUID
}.
End TaskCreate.

Module TaskUpdate.
Record t : Type := mk {
  title : field (option string);
  description : field (option string);
  weight : field (option Z);
  payout : field (option float);
  deadline : field (option datetime);
  status : field (option string);
  assignee_id : field (option UUID);
  pricing_type : field (option string);
  hourly_rate : field (option float);
  estimated_hours : field (option Z);
  required_skills : field (option (list string));
  auto_assign : field (option bool)
}.

(** A key of the schema with the value the request gave it. *)
Inductive item : Type :=
| Title (v : option string)
| Description (v : option string)
| Weight (v : option Z)
| Payout (v : option float)
| Deadline (v : option datetime)
| Status (v : option string)
| AssigneeId (v : option UUID)
| PricingType (v : option string)
| HourlyRate (v : option float)
| EstimatedHours (v : option Z)
| RequiredSkills (v : option (list string))
| AutoAssign (v : option bool).

Definition dict_exclude_unset (u : t) : list item :=
  item_of Title (title u) ++ item_of Description (description u)
  ++ item_of Weight (weight u) ++ item_of Payout (payout u)
  ++ item_of Deadline (deadline u) ++ item_of Status (status u)
  ++ item_of AssigneeId (assignee_id u) ++ item_of PricingType (pricing_type u)
  ++ item_of HourlyRate (hourly_rate u)
  ++ item_of EstimatedHours (estimated_hours u)
  ++ item_of RequiredSkills (required_skills u)
  ++ item_of AutoAssign (auto_assign u).
End TaskUpdate.

Module ProjectUpdate.
Record t : Type := mk {
  title : field (option string);
  description : field (option string);
  tags : field (option (list string));
  budget : field (option float);
  status : field (option string)
}.

Inductive item : Type :=
| Title (v : option string)
| Description (v : option string)
| Tags (v : option (list string))
| Budget (v : option float)
| Status (v : option string).

Definition dict_exclude_unset (u : t) : list item :=
  item_of Title (title u) ++ item_of Description (description u)
  ++ item_of Tags (tags u) ++ item_of Budget (budget u)
  ++ item_of Status (status u).
End ProjectUpdate.

(** [setattr(task, field, value)] for an item of [TaskUpdate]. *)
Definition Task_setattr (task : Task.t) (it : TaskUpdate.item) : Task.t :=
  match it with
  | TaskUpdate.Title v => Task.set_title v task
  | TaskUpdate.Description v => Task.set_description v task
  | TaskUpdate.Weight v => Task.set_weight v task
  | TaskUpdate.Payout v => Task.set_payout v task
  | TaskUpdate.Deadline v => Task.set_deadline v task
  | TaskUpdate.Status v => Task.set_status v task
  | TaskUpdate.AssigneeId v => Task.set_assignee_id v task
  | TaskUpdate.PricingType v => Task.set_pricing_type v task
  | TaskUpdate.HourlyRate v => Task.set_hourly_rate v task
  | TaskUpdate.EstimatedHours v => Task.set_estimated_hours v task
  | TaskUpdate.RequiredSkills v => Task.set_required_skills v task
  | TaskUpdate.AutoAssign v => Task.set_auto_assign v task
  end.

(** [setattr(project, field, value)] for an item of [ProjectUpdate]. *)
Definition Project_setattr (project : Project.t) (it : ProjectUpdate.item)
  : Project.t :=
  match it with
  | ProjectUpdate.Title v => Project.set_title v project
  | ProjectUpdate.Description v => Project.set_description v project
  | ProjectUpdate.Tags v => Project.set_tags v project
  | ProjectUpdate.Budget v => Project.set_budget v project
  | ProjectUpdate.Status v => Project.set_status v project
  end.

(** A column default ([Column(..., default=d)]): the ORM leaves an attribute
    that is [None] out of the INSERT, so the default is stored for it, both
    when the attribute was never set and when it was set to [None]. *)
Definition column_default {A} (d : A) (v : option A) : option A :=
  match v with
  | None => Some d
  | Some _ => v
  end.

(** The row inserted for [db_task], the [Task] built from the keyword
    arguments [task_data.dict()]: the arguments are the values pydantic reports (given, else the schema default); [status] and
    [assignee_id] are not arguments; [id] comes from [uuid.uuid4], the
    timestamps from the server. *)
Definition Task_new (id : UUID) (now : datetime) (task_data : TaskCreate.t)
  : Task.t :=
  {| Task.id := id;
     Task.project_id := TaskCreate.project_id task_data;
     Task.title := Some (TaskCreate.title task_data);
     Task.description := Some (TaskCreate.description task_data);
     Task.weight :=
       column_default 1 (Some (value_or 1 (TaskCreate.weight task_data)));
     Task.assignee_id := None;
     Task.status := column_default "open" None;
     Task.payout := Some (TaskCreate.payout task_data);
     Task.deadline := value_or None (TaskCreate.deadline task_data);
     Task.pricing_type :=
       column_default "fixed"
         (Some (value_or "fixed" (TaskCreate.pricing_type task_data)));
     Task.hourly_rate := value_or None (TaskCreate.hourly_rate task_data);
     Task.estimated_hours :=
       value_or None (TaskCreate.estimated_hours task_data);
     Task.required_skills :=
       column_default []
         (value_or (Some []) (TaskCreate.required_skills task_data));
     Task.auto_assign :=
       column_default false
         (Some (value_or false (TaskCreate.auto_assign task_data)));
     Task.application_window_minutes :=
       column_default 60
         (Some (value_or 60
                  (TaskCreate.application_window_minutes task_data)));
     Task.created_at := now;
     Task.updated_at := now |}.

(** Whether [setattr(task, field, value)] changes the attribute.  The session
    compares the value assigned with the one it loaded, by [==]; an attribute
    given the value it has is no change. *)
Definition Task_changes (task : Task.t) (it : TaskUpdate.item) : bool :=
  match it with
  | TaskUpdate.Title v => bool_decide (v ≠ Task.title task)
  | TaskUpdate.Description v => bool_decide (v ≠ Task.description task)
  | TaskUpdate.Weight v => bool_decide (v ≠ Task.weight task)
  | TaskUpdate.Payout v => negb (float_eq v (Task.payout task))
  | TaskUpdate.Deadline v => bool_decide (v ≠ Task.deadline task)
  | TaskUpdate.Status v => bool_decide (v ≠ Task.status task)
  | TaskUpdate.AssigneeId v => bool_decide (v ≠ Task.assignee_id task)
  | TaskUpdate.PricingType v => bool_decide (v ≠ Task.pricing_type task)
  | TaskUpdate.HourlyRate v => negb (float_eq v (Task.hourly_rate task))
  | TaskUpdate.EstimatedHours v => bool_decide (v ≠ Task.estimated_hours task)
  | TaskUpdate.RequiredSkills v => bool_decide (v ≠ Task.required_skills task)
  | TaskUpdate.AutoAssign v => bool_decide (v ≠ Task.auto_assign task)
  end.

Definition Project_changes (project : Project.t) (it : ProjectUpdate.item)
  : bool :=
  match it with
  | ProjectUpdate.Title v => bool_decide (v ≠ Project.title project)
  | ProjectUpdate.Description v => bool_decide (v ≠ Project.description project)
  | ProjectUpdate.Tags v => bool_decide (v ≠ Project.tags project)
  | ProjectUpdate.Budget v => negb (float_eq v (Project.budget project))
  | ProjectUpdate.Status v => bool_decide (v ≠ Project.status project)
  end.

(** What the session has pending for a task it loaded as [task], after the
    assignments [update_data]: nothing if no attribute changed, else one
    UPDATE that sets the columns of the attributes that changed and leaves
    the others as they are in the row. *)
Definition Task_pending (task : Task.t) (update_data : list TaskUpdate.item)
  : list write :=
  match filter (λ it, Task_changes task it) update_data with
  | [] => []
  | changed => [UpdateTask (foldl Task_setattr task changed)]
  end.

Definition Project_pending (project : Project.t)
    (update_data : list ProjectUpdate.item) : list write :=
  match filter (λ it, Project_changes project it) update_data with
  | [] => []
  | changed => [UpdateProject (foldl Project_setattr project changed)]
  end.

(** ** The handlers of [endpoints/tasks.py] *)

(** [now] is the server's clock and [new_id] the value [uuid.uuid4] draws;
    a path parameter is the identifier it spells. *)

Definition create_task (now : datetime) (new_id : UUID)
    (task_data : TaskCreate.t) (current_user : User.t) : M Task.t :=
  result <- execute (λ db,
    filter (λ p, Project.id p = TaskCreate.project_id task_data) (projects db)) ;;
  project <- scalar_one_or_none result ;;
  match project with
  | None => raise (HTTPException status.HTTP_404_NOT_FOUND "Project not found")
  | Some project =>
      if decide (Project.client_id project ≠ User.id current_user)
      then raise (HTTPException status.HTTP_403_FORBIDDEN
                    "Not authorized to create tasks for this project")
      else
        let db_task := Task_new new_id now task_data in
        commit now [InsertTask db_task] ;;
        refresh_task db_task
  end.

Definition get_tasks (project_id : option UUID) (status : option string)
    (skip limit : Z) (current_user : User.t) : M (list Task.t) :=
  query <- execute (λ db,
    if decide (User.role current_user = "client") then
      let client_projects :=
        Project.id <$>
          filter (λ p, Project.client_id p = User.id current_user) (projects db) in
      filter (λ x, Task.project_id x ∈ client_projects) (tasks db)
    else if decide (User.role current_user = "worker") then
      filter (λ x, Task.status x = Some "open" ∧ Task.assignee_id x = None)
        (tasks db)
    else tasks db) ;;
  let query :=
    match project_id with
    | Some project_id => filter (λ x, Task.project_id x = project_id) query
    | None => query
    end in
  let query :=
    if truthy status then filter (λ x, Task.status x = status) query
    else query in
  offset_limit skip limit query.

Definition get_task (task_id : UUID) (current_user : User.t) : M Task.t :=
  result <- execute (λ db, filter (λ x, Task.id x = task_id) (tasks db)) ;;
  task <- scalar_one_or_none result ;;
  match task with
  | None => raise (HTTPException status.HTTP_404_NOT_FOUND "Task not found")
  | Some task =>
      project <- execute (Task_project task) ;;
      foreign <-
        (if decide (User.role current_user = "client") then
           client_id <- client_id_of project ;;
           ret (bool_decide (client_id ≠ User.id current_user))
         else ret false) ;;
      if foreign
         || bool_decide (User.role current_user = "worker"
                         ∧ Task.assignee_id task ≠ Some (User.id current_user)
                         ∧ Task.status task ≠ Some "open")
      then raise (HTTPException status.HTTP_403_FORBIDDEN
                    "Not authorized to view this task")
      else ret task
  end.

Definition update_task (now : datetime) (task_id : UUID)
    (task_update : TaskUpdate.t) (current_user : User.t) : M Task.t :=
  result <- execute (λ db, filter (λ x, Task.id x = task_id) (tasks db)) ;;
  task <- scalar_one_or_none result ;;
  match task with
  | None => raise (HTTPException status.HTTP_404_NOT_FOUND "Task not found")
  | Some task =>
      project <- execute (Task_project task) ;;
      foreign <-
        (if decide (User.role current_user = "client") then
           client_id <- client_id_of project ;;
           ret (bool_decide (client_id ≠ User.id current_user))
         else ret false) ;;
      if foreign
      then raise (HTTPException status.HTTP_403_FORBIDDEN
                    "Not authorized to update this task")
      else if bool_decide (User.role current_user = "worker"
                           ∧ Task.assignee_id task ≠ Some (User.id current_user))
      then raise (HTTPException status.HTTP_403_FORBIDDEN
                    "Not authorized to update this task")
      else
        let update_data := TaskUpdate.dict_exclude_unset task_update in
        let loaded := task in
        let task := foldl Task_setattr task update_data in
        commit now (Task_pending loaded update_data) ;;
        refresh_task task
  end.

Definition claim_task (now : datetime) (task_id : UUID)
    (current_user : User.t) : M Task.t :=
  if decide (User.role current_user ≠ "worker")
  then raise (HTTPException status.HTTP_403_FORBIDDEN
                "Only workers can claim tasks")
  else
    result <- execute (λ db, filter (λ x, Task.id x = task_id) (tasks db)) ;;
    task <- scalar_one_or_none result ;;
    match task with
    | None => raise (HTTPException status.HTTP_404_NOT_FOUND "Task not found")
    | Some task =>
        if decide (Task.status task ≠ Some "open" ∨ Task.assignee_id task ≠ None)
        then raise (HTTPException status.HTTP_400_BAD_REQUEST
                      "Task is not available for claiming")
        else
          let task := Task.set_assignee_id (Some (User.id current_user)) task in
          let task := Task.set_status (Some "assigned") task in
          commit now [UpdateTask task] ;;
          refresh_task task
    end.

(** ** The handlers of [endpoints/projects.py] *)

Definition get_project (project_id : UUID) (current_user : User.t)
  : M Project.t :=
  result <- execute (λ db,
    filter (λ p, Project.id p = project_id) (projects db)) ;;
  project <- scalar_one_or_none result ;;
  match project with
  | None => raise (HTTPException status.HTTP_404_NOT_FOUND "Project not found")
  | Some project =>
      if decide (User.role current_user = "client"
                 ∧ Project.client_id project ≠ User.id current_user)
      then raise (HTTPException status.HTTP_403_FORBIDDEN
                    "Not authorized to view this project")
      else ret project
  end.

Definition update_project (now : datetime) (project_id : UUID)
    (project_update : ProjectUpdate.t) (current_user : User.t)
  : M Project.t :=
  result <- execute (λ db,
    filter (λ p, Project.id p = project_id) (projects db)) ;;
  project <- scalar_one_or_none result ;;
  match project with
  | None => raise (HTTPException status.HTTP_404_NOT_FOUND "Project not found")
  | Some project =>
      if decide (Project.client_id project ≠ User.id current_user)
      then raise (HTTPException status.HTTP_403_FORBIDDEN
                    "Not authorized to update this project")
      else
        let update_data := ProjectUpdate.dict_exclude_unset project_update in
        let loaded := project in
        let project := foldl Project_setattr project update_data in
        commit now (Project_pending loaded update_data) ;;
        refresh_project project
  end.

(** A JSON value of a response body built by hand. *)
Inductive json : Type :=
| JString (s : string)
| JNumber (n : Z).

Definition delete_project (now : datetime) (project_id : UUID)
    (current_user : User.t) : M (gmap string json) :=
  result <- execute (λ db,
    filter (λ p, Project.id p = project_id) (projects db)) ;;
  project <- scalar_one_or_none result ;;
  match project with
  | None => raise (HTTPException status.HTTP_404_NOT_FOUND "Project not found")
  | Some project =>
      if decide (Project.client_id project ≠ User.id current_user)
      then raise (HTTPException status.HTTP_403_FORBIDDEN
                    "Not authorized to delete this project")
      else
        commit now [DeleteProject project] ;;
        ret {[ "message" := JString "Project deleted successfully" ]}
  end.

(** ** The handler of [endpoints/notifications.py] *)

(** [Notification.read == False] does not select a row whose [read] is
    NULL. *)
Definition mark_all_notifications_read (now : datetime)
    (current_user : User.t) : M (gmap string json) :=
  notifications <- execute (λ db,
    filter (λ n, Notification.user_id n = User.id current_user
                 ∧ Notification.read n = Some false) (notifications db)) ;;
  let assigned := Notification.set_read (Some true) <$> notifications in
  commit now (UpdateNotification <$> assigned) ;;
  ret {[ "message" :=
           JString ("Marked " +:+ pretty (length notifications)
                    +:+ " notifications as read") ]}.

(** ** The other handlers *)

(** The changes the other handlers have pending at their commit: those of
    [write], an INSERT into [projects], and the DELETE of a task or of a
    notification. *)
Inductive change : Type :=
| Write (w : write)
| InsertProject (p : Project.t)               (* db.add(db_project) *)
| DeleteTask (x : Task.t)                     (* db.delete(task) *)
| DeleteNotification (n : Notification.t).    (* db.delete(notification) *)

(** No table refers to [tasks] or to [notifications], so their rows are
    deleted alone. *)
Definition apply_change (now : datetime) (c : change) (db : Store)
  : option Store :=
  match c with
  | Write w => flush now w db
  | InsertProject p =>
      if project_ok db p && bool_decide (Project.id p ∉ Project.id <$> projects db)
      then Some (set_projects (projects db ++ [p]) db)
      else None
  | DeleteTask x =>
      Some (set_tasks (filter (λ r, Task.id r ≠ Task.id x) (tasks db)) db)
  | DeleteNotification n =>
      Some (set_notifications
              (filter (λ r, Notification.id r ≠ Notification.id n)
                 (notifications db)) db)
  end.

Fixpoint apply_changes (now : datetime) (cs : list change) (db : Store)
  : option Store :=
  match cs with
  | [] => Some db
  | c :: cs =>
      match apply_change now c db with
      | Some db' => apply_changes now cs db'
      | None => None
      end
  end.

(** The exception of a flush of these changes that fails ([refusal]). *)
Fixpoint refused_change (now : datetime) (cs : list change) (db : Store) : exn :=
  match cs with
  | [] => IntegrityError
  | c :: cs =>
      match apply_change now c db with
      | Some db' => refused_change now cs db'
      | None =>
          match c with
          | Write w => if unbindable w then DataError else IntegrityError
          | _ => IntegrityError
          end
      end
  end.

(** [await db.commit()] for these changes. *)
Definition commit_changes (now : datetime) (cs : list change) : M () :=
  λ db, match apply_changes now cs db with
        | Some db' => (Ok (), db')
        | None => (Raise (refused_change now cs db), db)
        end.

Definition refresh_notification (n : Notification.t) : M Notification.t :=
  rows <- execute (λ db,
    filter (λ r, Notification.id r = Notification.id n) (notifications db)) ;;
  match rows with
  | [r] => ret r
  | _ => raise InvalidRequestError
  end.

Module ProjectCreate.
(** [ProjectBase]: [title], [description] and [budget] are required. *)
Record t : Type := mk {
  title : string;
  description : string;
  tags : field (option (list string));   (* Optional[List[str]] = [] *)
  budget : float
}.
End ProjectCreate.

(** The row inserted for [db_project], the [Project] built from
    [client_id=current_user.id] and the keyword arguments
    [project_data.dict()]; [status] is not an argument. *)
Definition Project_new (id : UUID) (now : datetime) (client_id : UUID)
    (project_data : ProjectCreate.t) : Project.t :=
  {| Project.id := id;
     Project.client_id := client_id;
     Project.title := Some (ProjectCreate.title project_data);
     Project.description := Some (ProjectCreate.description project_data);
     Project.tags :=
       column_default []
         (value_or (Some []) (ProjectCreate.tags project_data));
     Project.budget := Some (ProjectCreate.budget project_data);
     Project.status := column_default "open" None;
     Project.created_at := now;
     Project.updated_at := now |}.

(** *** [endpoints/tasks.py] *)

Definition get_my_tasks (current_user : User.t) : M (list Task.t) :=
  if decide (User.role current_user ≠ "worker")
  then raise (HTTPException status.HTTP_403_FORBIDDEN
                "Only workers can view assigned tasks")
  else
    execute (λ db,
      filter (λ x, Task.assignee_id x = Some (User.id current_user)) (tasks db)).

Definition delete_task (now : datetime) (task_id : UUID)
    (current_user : User.t) : M (gmap string json) :=
  result <- execute (λ db, filter (λ x, Task.id x = task_id) (tasks db)) ;;
  task <- scalar_one_or_none result ;;
  match task with
  | None => raise (HTTPException status.HTTP_404_NOT_FOUND "Task not found")
  | Some task =>
      project <- execute (Task_project task) ;;
      client_id <- client_id_of project ;;
      if decide (client_id ≠ User.id current_user)
      then raise (HTTPException status.HTTP_403_FORBIDDEN
                    "Not authorized to delete this task")
      else
        commit_changes now [DeleteTask task] ;;
        ret {[ "message" := JString "Task deleted successfully" ]}
  end.

(** *** [endpoints/projects.py] *)

Definition create_project (now : datetime) (new_id : UUID)
    (project_data : ProjectCreate.t) (current_user : User.t) : M Project.t :=
  if decide (User.role current_user ≠ "client")
  then raise (HTTPException status.HTTP_403_FORBIDDEN
                "Only clients can create projects")
  else
    let db_project :=
      Project_new new_id now (User.id current_user) project_data in
    commit_changes now [InsertProject db_project] ;;
    refresh_project db_project.

Definition get_projects (skip limit : Z) (current_user : User.t)
  : M (list Project.t) :=
  if decide (User.role current_user = "client") then
    result <- execute (λ db,
      filter (λ p, Project.client_id p = User.id current_user) (projects db)) ;;
    offset_limit skip limit result
  else
    result <- execute (λ db,
      filter (λ p, Project.status p = Some "open") (projects db)) ;;
    offset_limit skip limit result.

(** *** [endpoints/notifications.py] *)

(** [order_by(Notification.created_at.desc())]: the later notification
    first.  SQL leaves the order of notifications of the same instant open;
    here it is the one the sort gives them. *)
Definition newest_first (a b : Notification.t) : Prop :=
  (Notification.created_at b ≤ Notification.created_at a)%Z.

#[global] Instance newest_first_dec a b : Decision (newest_first a b).
Proof. unfold newest_first. apply _. Defined.

#[global] Instance newest_first_trans : Transitive newest_first.
Proof. unfold newest_first. intros a b c ? ?. lia. Qed.

#[global] Instance newest_first_total : Total newest_first.
Proof. unfold newest_first. intros a b. lia. Qed.

Definition get_notifications (skip limit : Z) (unread_only : bool)
    (current_user : User.t) : M (list Notification.t) :=
  query <- execute (λ db,
    filter (λ n, Notification.user_id n = User.id current_user)
      (notifications db)) ;;
  let query :=
    if unread_only
    then filter (λ n, Notification.read n = Some false) query
    else query in
  offset_limit skip limit (merge_sort newest_first query).

(** [notification.read = True] on a notification that is read already is
    no change, and the session has nothing to flush for it. *)
Definition mark_notification_read (now : datetime) (notification_id : UUID)
    (current_user : User.t) : M Notification.t :=
  result <- execute (λ db,
    filter (λ n, Notification.id n = notification_id
                 ∧ Notification.user_id n = User.id current_user)
      (notifications db)) ;;
  notification <- scalar_one_or_none result ;;
  match notification with
  | None =>
      raise (HTTPException status.HTTP_404_NOT_FOUND "Notification not found")
  | Some notification =>
      let assigned := Notification.set_read (Some true) notification in
      commit now (if decide (Notification.read notification = Some true)
                  then [] else [UpdateNotification assigned]) ;;
      refresh_notification assigned
  end.

Definition delete_notification (now : datetime) (notification_id : UUID)
    (current_user : User.t) : M (gmap string json) :=
  result <- execute (λ db,
    filter (λ n, Notification.id n = notification_id
                 ∧ Notification.user_id n = User.id current_user)
      (notifications db)) ;;
  notification <- scalar_one_or_none result ;;
  match notification with
  | None =>
      raise (HTTPException status.HTTP_404_NOT_FOUND "Notification not found")
  | Some notification =>
      commit_changes now [DeleteNotification notification] ;;
      ret {[ "message" := JString "Notification deleted successfully" ]}
  end.

(** ** A sample store *)

Module Sample.
Definition user (id : UUID) (email role : string) : User.t :=
  {| User.id := id; User.email := email; User.name := None;
     User.hashed_password := "x"; User.role := role;
     User.skills := Some []; User.rating := Some 0%float;
     User.wallet_balance := Some 0%float; User.avatar_url := None;
     User.tier := Some "bronze"; User.onboarding_completed := Some false;
     User.is_active := Some true;
     User.created_at := 100; User.updated_at := 100 |}.

Definition alice : User.t := user 1 "alice@example.org" "client".
Definition bob : User.t := user 2 "bob@example.org" "client".
Definition carol : User.t := user 3 "carol@example.org" "worker".
Definition dave : User.t := user 4 "dave@example.org" "worker".

Definition project (id client_id : UUID) (title : string) (budget : float)
  : Project.t :=
  {| Project.id := id; Project.client_id := client_id;
     Project.title := Some title; Project.description := Some "d";
     Project.tags := Some []; Project.budget := Some budget;
     Project.status := Some "open";
     Project.created_at := 200; Project.updated_at := 200 |}.

Definition task (id project_id : UUID) (status : string)
    (assignee_id : option UUID) : Task.t :=
  {| Task.id := id; Task.project_id := project_id;
     Task.title := Some "t"; Task.description := Some "d";
     Task.weight := Some 1; Task.assignee_id := assignee_id;
     Task.status := Some status; Task.payout := Some 5%float;
     Task.deadline := None; Task.pricing_type := Some "fixed";
     Task.hourly_rate := None; Task.estimated_hours := None;
     Task.required_skills := Some []; Task.auto_assign := Some false;
     Task.application_window_minutes := Some 60;
     Task.created_at := 300; Task.updated_at := 300 |}.

Definition notification (id user_id : UUID) (read : bool) : Notification.t :=
  {| Notification.id := id; Notification.user_id := user_id;
     Notification.title := "n"; Notification.message := "m";
     Notification.type := Some "info"; Notification.read := Some read;
     Notification.created_at := 400; Notification.updated_at := 400 |}.

(** Alice owns project 10 with tasks 20 (open), 21 (assigned to Carol) and
    22 (open); Bob owns project 11 with task 23.  Carol has three unread
    and two read notifications, Dave one unread. *)
Definition db : Store :=
  {| users := [alice; bob; carol; dave];
     projects := [project 10 1 "A" 10%float; project 11 2 "B" 7%float];
     tasks := [task 20 10 "open" None; task 21 10 "assigned" (Some 3%N);
               task 22 10 "open" None; task 23 11 "open" None];
     notifications := [notification 30 3 false; notification 31 3 true;
                       notification 32 3 false; notification 33 4 false;
                       notification 34 3 true; notification 35 3 false] |}.
End Sample.

(** ** The constraints of the schema *)

(** What the store guarantees of every state it holds: primary keys are
    unique, NOT NULL columns are filled, the integers fit their columns and
    foreign keys point to rows. *)
Definition wf (db : Store) : Prop :=
  NoDup (User.id <$> users db)
  ∧ NoDup (Project.id <$> projects db)
  ∧ NoDup (Task.id <$> tasks db)
  ∧ NoDup (Notification.id <$> notifications db)
  ∧ Forall (λ p, project_ok db p) (projects db)
  ∧ Forall (λ x, task_ok db x) (tasks db)
  ∧ Forall (λ n, notification_ok db n) (notifications db).

#[global] Instance wf_dec db : Decision (wf db).
Proof. unfold wf. apply _. Defined.

(** ** The vocabulary of the statements *)

(** The task row after a claim by [w] at time [now]. *)
Definition claimed (now : datetime) (w : User.t) (x : Task.t) : Task.t :=
  Task.set_updated_at now
    (Task.set_status (Some "assigned")
       (Task.set_assignee_id (Some (User.id w)) x)).

(** The store after the owner deleted project [p]. *)
Definition without_project (p : Project.t) (db : Store) : Store :=
  set_projects (filter (λ r, Project.id r ≠ Project.id p) (projects db))
    (set_tasks (filter (λ x, Task.project_id x ≠ Project.id p) (tasks db)) db).

(** What a worker is shown by the task list. *)
Definition open_unassigned (x : Task.t) : Prop :=
  Task.status x = Some "open" ∧ Task.assignee_id x = None.

(** The notifications [mark_all_notifications_read] selects for [u]. *)
Definition unread_of (u : User.t) (n : Notification.t) : Prop :=
  Notification.user_id n = User.id u ∧ Notification.read n = Some false.

#[global] Instance unread_of_dec u n : Decision (unread_of u n).
Proof. unfold unread_of. apply _. Defined.

(** A selected notification after the flush. *)
Definition marked_read (now : datetime) (n : Notification.t) : Notification.t :=
  Notification.set_updated_at now (Notification.set_read (Some true) n).

(** The store after [u] marked all as read at time [now]. *)
Definition all_read (now : datetime) (u : User.t) (db : Store) : Store :=
  set_notifications
    ((λ n, if decide (unread_of u n) then marked_read now n else n)
       <$> notifications db) db.

(** The project the [setattr] loop of [update_project] leaves
    ([setattr_loop_project]): a field the request set has the value given,
    any other field its old value. *)
Definition patched_project (u : ProjectUpdate.t) (p : Project.t) : Project.t :=
  {| Project.id := Project.id p;
     Project.client_id := Project.client_id p;
     Project.title := value_or (Project.title p) (ProjectUpdate.title u);
     Project.description :=
       value_or (Project.description p) (ProjectUpdate.description u);
     Project.tags := value_or (Project.tags p) (ProjectUpdate.tags u);
     Project.budget := value_or (Project.budget p) (ProjectUpdate.budget u);
     Project.status := value_or (Project.status p) (ProjectUpdate.status u);
     Project.created_at := Project.created_at p;
     Project.updated_at := Project.updated_at p |}.

(** The task the [setattr] loop of [update_task] leaves
    ([setattr_loop_task]). *)
Definition patched_task (u : TaskUpdate.t) (x : Task.t) : Task.t :=
  {| Task.id := Task.id x;
     Task.project_id := Task.project_id x;
     Task.title := value_or (Task.title x) (TaskUpdate.title u);
     Task.description := value_or (Task.description x) (TaskUpdate.description u);
     Task.weight := value_or (Task.weight x) (TaskUpdate.weight u);
     Task.assignee_id := value_or (Task.assignee_id x) (TaskUpdate.assignee_id u);
     Task.status := value_or (Task.status x) (TaskUpdate.status u);
     Task.payout := value_or (Task.payout x) (TaskUpdate.payout u);
     Task.deadline := value_or (Task.deadline x) (TaskUpdate.deadline u);
     Task.pricing_type :=
       value_or (Task.pricing_type x) (TaskUpdate.pricing_type u);
     Task.hourly_rate := value_or (Task.hourly_rate x) (TaskUpdate.hourly_rate u);
     Task.estimated_hours :=
       value_or (Task.estimated_hours x) (TaskUpdate.estimated_hours u);
     Task.required_skills :=
       value_or (Task.required_skills x) (TaskUpdate.required_skills u);
     Task.auto_assign := value_or (Task.auto_assign x) (TaskUpdate.auto_assign u);
     Task.application_window_minutes := Task.application_window_minutes x;
     Task.created_at := Task.created_at x;
     Task.updated_at := Task.updated_at x |}.

(** The value a [Float] column holds after an UPDATE for the assignment of
    [new] to an attribute loaded as [old]: an assignment of a value equal to
    the old one ([float_eq]) is no change, the column is not part of the
    UPDATE and keeps the old value. *)
Definition kept (old new : option float) : option float :=
  if float_eq new old then old else new.

(** The row of [p] as the flush of [update_project] leaves it, up to
    [updated_at] ([net_update_project]): the project of the [setattr] loop,
    with [budget] as the UPDATE leaves it.  For the columns that are no
    [Float] a value equal to the old one is the old one. *)
Definition stored_project (u : ProjectUpdate.t) (p : Project.t) : Project.t :=
  Project.set_budget
    (kept (Project.budget p) (Project.budget (patched_project u p)))
    (patched_project u p).

(** The same for a task ([net_update_task]), whose [Float] columns are
    [payout] and [hourly_rate]. *)
Definition stored_task (u : TaskUpdate.t) (x : Task.t) : Task.t :=
  Task.set_payout
    (kept (Task.payout x) (Task.payout (patched_task u x)))
    (Task.set_hourly_rate
       (kept (Task.hourly_rate x) (Task.hourly_rate (patched_task u x)))
       (patched_task u x)).

(** What the flush makes of one field of the request: the assignment, if the
    field was given a value and that value changes the attribute. *)
Definition net_step {R I V} (setattr : R → I → R) (changes : I → bool)
    (key : V → I) (f : field V) (acc : R) : R :=
  match f with
  | Unset => acc
  | Given v => if changes (key v) then setattr acc (key v) else acc
  end.






(** A computation that takes a store satisfying the constraints to one that
    does, whether it returns or raises. *)
Definition preserves {A} (c : M A) : Prop :=
  ∀ db, wf db → wf (snd (c db)).

(** The task belongs to a project of the client. *)
Definition in_project_of (db : Store) (u : User.t) (x : Task.t) : Prop :=
  ∃ p, p ∈ projects db ∧ Project.id p = Task.project_id x
       ∧ Project.client_id p = User.id u.

(** The permission check of [update_task], as a condition on the actor:
    a client must own the project of the task, a worker must be its
    assignee, and no condition is put on another role. *)
Definition may_update (db : Store) (u : User.t) (x : Task.t) : Prop :=
  (User.role u = "client" → in_project_of db u x)
  ∧ (User.role u = "worker" → Task.assignee_id x = Some (User.id u)).

(** The store after the DELETE of task [x]. *)
Definition without_task (x : Task.t) (db : Store) : Store :=
  set_tasks (filter (λ r, Task.id r ≠ Task.id x) (tasks db)) db.


(** Carol's mailbox with notifications of different instants: 40 at 10
    (unread), 41 at 30 (read), 42 at 20 (unread); 43 is Dave's. *)
Definition inbox : Store :=
  set_notifications
    [Notification.mk 40 3 "n" "m" None (Some false) 10 10;
     Notification.mk 41 3 "n" "m" None (Some true) 30 30;
     Notification.mk 42 3 "n" "m" None (Some false) 20 20;
     Notification.mk 43 4 "n" "m" None (Some false) 40 40]
    Sample.db.

(** The store after the DELETE of notification [n]. *)
Definition without_notification (n : Notification.t) (db : Store) : Store :=
  set_notifications
    (filter (λ r, Notification.id r ≠ Notification.id n) (notifications db))
    db.

(** A computation that leaves every store as it finds it. *)
Definition reads {A} (c : M A) : Prop := ∀ db, snd (c db) = db.

(** A computation that, run from [db], leaves [db] whenever it raises. *)
Definition rolls_back {A} (c : M A) (db : Store) : Prop :=
  ∀ e, fst (c db) = Raise e → snd (c db) = db.

(** A computation that does not raise from [db]. *)
Definition returns {A} (c : M A) (db : Store) : Prop :=
  ∀ e, fst (c db) ≠ Raise e.

(** * Proofs *)

(** Closing goals on the sample store: membership by position, decidable
    side conditions by evaluation. *)
Ltac in_table :=
  first [ apply list_elem_of_here | apply list_elem_of_further; in_table ].
Ltac by_eval := apply (bool_decide_unpack _); vm_compute; exact I.

(** ** Selecting and updating by primary key *)

Section by_key.
Context {A : Type} (key : A → UUID).
Implicit Types (x r : A) (rows : list A) (k : UUID).

Lemma select_absent rows k :
  k ∉ key <$> rows → filter (λ r, key r = k) rows = [].
Proof.
  induction rows as [|y rows IH]; intros Hk; [done|].
  rewrite fmap_cons, not_elem_of_cons in Hk. destruct Hk as [Hne Hk].
  rewrite filter_cons_False by congruence. auto.
Qed.

Lemma select_by_key rows x :
  NoDup (key <$> rows) → x ∈ rows → filter (λ r, key r = key x) rows = [x].
Proof.
  induction rows as [|y rows IH]; intros Hnd Hx.
  - by apply elem_of_nil in Hx.
  - rewrite fmap_cons, NoDup_cons in Hnd. destruct Hnd as [Hy Hnd].
    apply elem_of_cons in Hx as [->|Hx].
    + rewrite filter_cons_True by done. by rewrite select_absent.
    + assert (key y ≠ key x) as Hne.
      { intros Heq. apply Hy. rewrite Heq. by apply list_elem_of_fmap_2. }
      rewrite filter_cons_False by done. auto.
Qed.

Lemma update_row_cons rows x r :
  update_row key x (r :: rows)
  = (if decide (key r = key x) then x else r) :: update_row key x rows.
Proof. reflexivity. Qed.

Lemma update_row_keys rows x : key <$> update_row key x rows = key <$> rows.
Proof.
  unfold update_row. rewrite <- list_fmap_compose.
  apply list_fmap_ext. intros _ r _. simpl. by case_decide.
Qed.

Lemma update_row_absent rows x :
  key x ∉ key <$> rows → update_row key x rows = rows.
Proof.
  intros Hk. unfold update_row. rewrite <- (list_fmap_id rows) at 2.
  apply list_fmap_ext. intros _ r Hr%list_elem_of_lookup_2. simpl.
  case_decide as Heq; [|done].
  exfalso. apply Hk. rewrite <- Heq. by apply list_elem_of_fmap_2.
Qed.

(** After the UPDATE the primary key selects the new values. *)
Lemma select_updated rows x0 x :
  NoDup (key <$> rows) → x0 ∈ rows → key x = key x0 →
  filter (λ r, key r = key x0) (update_row key x rows) = [x].
Proof.
  intros Hnd Hx0 Hk. rewrite <- Hk.
  assert (x ∈ update_row key x rows) as Hx.
  { unfold update_row. apply list_elem_of_fmap. exists x0.
    split; [|done]. by rewrite decide_True. }
  apply select_by_key; [|done]. by rewrite update_row_keys.
Qed.

End by_key.

(** ** What [wf] gives for a row *)

Lemma wf_task_ok db x : wf db → x ∈ tasks db → task_ok db x.
Proof.
  intros (_ & _ & _ & _ & _ & Ht & _) Hx.
  by eapply (proj1 (Forall_forall _ _) Ht).
Qed.

Lemma wf_project_ok db p : wf db → p ∈ projects db → project_ok db p.
Proof.
  intros (_ & _ & _ & _ & Hp & _) Hx.
  by eapply (proj1 (Forall_forall _ _) Hp).
Qed.

Lemma wf_notification_ok db n :
  wf db → n ∈ notifications db → notification_ok db n.
Proof.
  intros (_ & _ & _ & _ & _ & _ & Hn) Hx.
  by eapply (proj1 (Forall_forall _ _) Hn).
Qed.

Lemma wf_tasks_pk db : wf db → NoDup (Task.id <$> tasks db).
Proof. by intros (_ & _ & ? & _). Qed.

Lemma wf_projects_pk db : wf db → NoDup (Project.id <$> projects db).
Proof. by intros (_ & ? & _). Qed.

Lemma wf_notifications_pk db :
  wf db → NoDup (Notification.id <$> notifications db).
Proof. by intros (_ & _ & _ & ? & _). Qed.

Lemma task_ok_inv db x :
  task_ok db x →
  Task.not_null x ∧ Task.project_id x ∈ Project.id <$> projects db
  ∧ fk_users db (Task.assignee_id x).
Proof.
  unfold task_ok. rewrite !andb_True, bool_decide_spec. tauto.
Qed.

Lemma task_ok_range db x : task_ok db x → Task.in_range x.
Proof.
  unfold task_ok. rewrite !andb_True. tauto.
Qed.

Lemma task_ok_intro db x :
  Task.not_null x → Task.in_range x →
  Task.project_id x ∈ Project.id <$> projects db →
  fk_users db (Task.assignee_id x) → task_ok db x.
Proof.
  unfold task_ok. rewrite !andb_True, bool_decide_spec. tauto.
Qed.

Lemma wf_task_range db x : wf db → x ∈ tasks db → Task.in_range x.
Proof. intros Hwf Hx. eapply task_ok_range, wf_task_ok; eauto. Qed.

Lemma fk_users_elem_of db (u : User.t) :
  u ∈ users db → fk_users db (Some (User.id u)).
Proof.
  intros Hu. simpl. apply bool_decide_pack. by apply list_elem_of_fmap_2.
Qed.

(** ** claim *)

(** C10: the role check of [claim_task] comes first: whoever is not a worker
    gets 403 "Only workers can claim tasks" for every task id, whether a task
    with that id exists or not, and the store is not touched. *)
Theorem claim_task_not_worker now task_id current_user db :
  User.role current_user ≠ "worker" →
  claim_task now task_id current_user db
  = (Raise (HTTPException 403 "Only workers can claim tasks"), db).
Proof.
  intros Hrole. unfold claim_task. by rewrite decide_True.
Qed.

Lemma claim_task_not_worker_witness :
  User.role Sample.alice ≠ "worker"
  ∧ claim_task 999 77 Sample.alice Sample.db
    = (Raise (HTTPException 403 "Only workers can claim tasks"), Sample.db).
Proof.
  assert (User.role Sample.alice ≠ "worker") as H by (by vm_compute).
  split; [exact H|]. exact (claim_task_not_worker 999 77 Sample.alice Sample.db H).
Defined.

(** C1: a worker who claims an open, unassigned task gets it: the handler
    returns the task with [assignee_id] the worker's id and [status]
    "assigned", and the store differs from the old one by a single UPDATE of
    that row which carries both columns. *)
Theorem claim_task_open now db w x :
  wf db → w ∈ users db → User.role w = "worker" →
  x ∈ tasks db → Task.status x = Some "open" → Task.assignee_id x = None →
  claim_task now (Task.id x) w db
  = (Ok (claimed now w x),
     set_tasks (update_row Task.id (claimed now w x) (tasks db)) db)
  ∧ Task.assignee_id (claimed now w x) = Some (User.id w)
  ∧ Task.status (claimed now w x) = Some "assigned".
Proof.
  intros Hwf Hw Hrole Hx Hst Has.
  split; [|by destruct x].
  unfold claim_task. rewrite decide_False by (by intros []).
  unfold bind at 1, execute at 1.
  rewrite select_by_key by auto using wf_tasks_pk.
  cbv [bind scalar_one_or_none ret].
  rewrite decide_False by (intros [?|?]; congruence).
  pose proof (task_ok_inv _ _ (wf_task_ok _ _ Hwf Hx)) as (Hnn & Hfk & _).
  pose proof (wf_task_range _ _ Hwf Hx) as Hrg.
  assert (task_ok db (Task.set_status (Some "assigned")
                        (Task.set_assignee_id (Some (User.id w)) x))) as Hok.
  { apply task_ok_intro; destruct x; try done.
    by apply (fk_users_elem_of db w). }
  cbv [commit flush_all flush]. rewrite (Is_true_true_1 _ Hok).
  cbv [refresh_task bind execute tasks set_tasks].
  replace (Task.id (Task.set_status _ _)) with (Task.id x) by (by destruct x).
  fold (claimed now w x).
  rewrite (select_updated Task.id (tasks db) x) by
    (auto using wf_tasks_pk; by destruct x).
  done.
Qed.

Lemma claim_task_open_witness :
  claim_task 999 20 Sample.carol Sample.db
  = (Ok (claimed 999 Sample.carol (Sample.task 20 10 "open" None)),
     set_tasks
       (update_row Task.id
          (claimed 999 Sample.carol (Sample.task 20 10 "open" None))
          (tasks Sample.db)) Sample.db)
  ∧ Task.assignee_id (claimed 999 Sample.carol (Sample.task 20 10 "open" None))
    = Some 3%N
  ∧ Task.status (claimed 999 Sample.carol (Sample.task 20 10 "open" None))
    = Some "assigned".
Proof.
  apply (claim_task_open 999 Sample.db Sample.carol
           (Sample.task 20 10 "open" None)).
  - by_eval.
  - unfold Sample.db, users. in_table.
  - reflexivity.
  - unfold Sample.db, tasks. in_table.
  - reflexivity.
  - reflexivity.
Defined.

(** C2, as stated, fails: Alice is a client, task 21 is assigned, and her
    claim is refused with 403 by the role check, not with 400. *)
Lemma claim_task_unavailable_client_forbidden :
  Sample.task 21 10 "assigned" (Some 3%N) ∈ tasks Sample.db
  ∧ Task.status (Sample.task 21 10 "assigned" (Some 3%N)) ≠ Some "open"
  ∧ fst (claim_task 999 21 Sample.alice Sample.db)
    = Raise (HTTPException 403 "Only workers can claim tasks")
  ∧ fst (claim_task 999 21 Sample.alice Sample.db)
    ≠ Raise (HTTPException 400 "Task is not available for claiming").
Proof.
  split_and!.
  - unfold Sample.db, tasks. in_table.
  - by vm_compute.
  - reflexivity.
  - by vm_compute.
Qed.

(** C2, amended: a claim on an existing task that is not open or already has
    an assignee never succeeds and leaves the store as it is; a worker gets
    400 "Task is not available for claiming", any other actor 403. *)
Theorem claim_task_unavailable now db current_user x :
  wf db → x ∈ tasks db →
  Task.status x ≠ Some "open" ∨ Task.assignee_id x ≠ None →
  (User.role current_user = "worker" →
   claim_task now (Task.id x) current_user db
   = (Raise (HTTPException 400 "Task is not available for claiming"), db))
  ∧ (User.role current_user ≠ "worker" →
     claim_task now (Task.id x) current_user db
     = (Raise (HTTPException 403 "Only workers can claim tasks"), db)).
Proof.
  intros Hwf Hx Hun. split; intros Hrole.
  - unfold claim_task. rewrite decide_False by (by intros []).
    unfold bind at 1, execute at 1.
    rewrite select_by_key by auto using wf_tasks_pk.
    cbv [bind scalar_one_or_none ret].
    by rewrite decide_True.
  - unfold claim_task. by rewrite decide_True.
Qed.

Lemma claim_task_unavailable_witness :
  (User.role Sample.carol = "worker" →
   claim_task 999 21 Sample.carol Sample.db
   = (Raise (HTTPException 400 "Task is not available for claiming"),
      Sample.db))
  ∧ (User.role Sample.carol ≠ "worker" →
     claim_task 999 21 Sample.carol Sample.db
     = (Raise (HTTPException 403 "Only workers can claim tasks"), Sample.db)).
Proof.
  apply (claim_task_unavailable 999 Sample.db Sample.carol
           (Sample.task 21 10 "assigned" (Some 3%N))).
  - by_eval.
  - unfold Sample.db, tasks. in_table.
  - left. by vm_compute.
Defined.

(** ** Reading and deleting a project *)

(** [delete_project] raises only before it commits. *)
Lemma delete_project_raise now project_id current_user db e :
  fst (delete_project now project_id current_user db) = Raise e →
  snd (delete_project now project_id current_user db) = db.
Proof.
  cbv [delete_project bind execute].
  destruct (filter _ (projects db)) as [|p [|q rows]];
    cbv [scalar_one_or_none ret raise]; try done.
  destruct (decide (Project.client_id p ≠ User.id current_user)); done.
Qed.

(** C3: the owner's delete removes the project and every task whose
    [project_id] is the project's, in the one commit of the handler: the
    response is the confirmation, no row of the project is left in
    [projects] and no task of it in [tasks], while the other projects and
    tasks stay; and whenever [delete_project] raises instead, the store is
    the one it started from, so the project and its tasks are all still
    there. *)
Theorem delete_project_cascade now db current_user p :
  wf db → p ∈ projects db → Project.client_id p = User.id current_user →
  delete_project now (Project.id p) current_user db
  = (Ok {[ "message" := JString "Project deleted successfully" ]},
     without_project p db)
  ∧ flush_all now [DeleteProject p] db = Some (without_project p db)
  ∧ (∀ r, r ∈ projects (without_project p db) ↔
          r ∈ projects db ∧ Project.id r ≠ Project.id p)
  ∧ (∀ x, x ∈ tasks (without_project p db) ↔
          x ∈ tasks db ∧ Task.project_id x ≠ Project.id p)
  ∧ (p ∉ projects (without_project p db))
  ∧ (∀ project_id actor e,
       fst (delete_project now project_id actor db) = Raise e →
       snd (delete_project now project_id actor db) = db).
Proof.
  intros Hwf Hp Hown. split_and!.
  - unfold delete_project. unfold bind at 1, execute at 1.
    rewrite select_by_key by auto using wf_projects_pk.
    cbv [bind scalar_one_or_none ret].
    rewrite decide_False by (by intros []). reflexivity.
  - reflexivity.
  - intros r. unfold without_project. simpl.
    rewrite list_elem_of_filter. tauto.
  - intros x. unfold without_project. simpl.
    rewrite list_elem_of_filter. tauto.
  - unfold without_project. simpl. rewrite list_elem_of_filter. tauto.
  - intros. by eapply delete_project_raise.
Qed.

Lemma delete_project_cascade_witness :
  delete_project 999 10 Sample.alice Sample.db
  = (Ok {[ "message" := JString "Project deleted successfully" ]},
     without_project (Sample.project 10 1 "A" 10%float) Sample.db)
  ∧ Task.id <$> tasks (without_project (Sample.project 10 1 "A" 10%float)
                         Sample.db) = [23%N]
  ∧ Project.id <$> projects (without_project (Sample.project 10 1 "A" 10%float)
                               Sample.db) = [11%N].
Proof.
  split; [|split; reflexivity].
  apply (delete_project_cascade 999 Sample.db Sample.alice
           (Sample.project 10 1 "A" 10%float)).
  - by_eval.
  - unfold Sample.db, projects. in_table.
  - reflexivity.
Defined.

(** C6: [get_project] answers 404 for an id that no project has, whoever
    asks; 403 to a client who asks for a project of another client; and
    gives a worker every existing project, with no ownership condition. *)
Theorem get_project_cases db :
  (∀ project_id current_user,
     project_id ∉ Project.id <$> projects db →
     get_project project_id current_user db
     = (Raise (HTTPException 404 "Project not found"), db))
  ∧ (∀ p current_user,
       wf db → p ∈ projects db →
       User.role current_user = "client" →
       Project.client_id p ≠ User.id current_user →
       get_project (Project.id p) current_user db
       = (Raise (HTTPException 403 "Not authorized to view this project"), db))
  ∧ (∀ p current_user,
       wf db → p ∈ projects db →
       User.role current_user = "worker" →
       get_project (Project.id p) current_user db = (Ok p, db)).
Proof.
  split_and!.
  - intros project_id current_user Hout.
    unfold get_project. unfold bind at 1, execute at 1.
    by rewrite select_absent.
  - intros p current_user Hwf Hp Hrole Hne.
    unfold get_project. unfold bind at 1, execute at 1.
    rewrite select_by_key by auto using wf_projects_pk.
    cbv [bind scalar_one_or_none ret].
    by rewrite decide_True.
  - intros p current_user Hwf Hp Hrole.
    unfold get_project. unfold bind at 1, execute at 1.
    rewrite select_by_key by auto using wf_projects_pk.
    cbv [bind scalar_one_or_none ret].
    rewrite decide_False; [done|]. rewrite Hrole. by intros [? _].
Qed.

(** C5: whatever the store and the query parameters, every task in the list
    [get_tasks] returns to a worker is open and unassigned; in particular
    the list has no task that is not open, assigned to the worker or not.
    The list is returned whenever [skip] and [limit] are not negative and
    fit the 32 bits of an [INTEGER] parameter. *)
Theorem get_tasks_worker db current_user project_id status skip limit :
  User.role current_user = "worker" →
  (∀ l, fst (get_tasks project_id status skip limit current_user db) = Ok l →
        Forall open_unassigned l
        ∧ Forall (λ x, Task.status x ≠ Some "open" →
                       Task.assignee_id x = Some (User.id current_user)) l)
  ∧ ((0 ≤ skip ≤ 2147483647)%Z → (0 ≤ limit ≤ 2147483647)%Z →
     ∃ l, get_tasks project_id status skip limit current_user db = (Ok l, db)).
Proof.
  intros Hrole. unfold get_tasks. unfold bind at 1 2, execute at 1 2.
  rewrite Hrole. rewrite decide_False by done. rewrite decide_True by done.
  set (visible := filter _ (tasks db)).
  assert (Forall open_unassigned visible) as Hvis.
  { apply Forall_forall. by intros x [? _]%list_elem_of_filter. }
  set (q1 := match project_id with Some _ => _ | None => _ end).
  assert (Forall open_unassigned q1) as Hq1.
  { subst q1. destruct project_id; [|done].
    apply Forall_forall. intros x [_ Hx]%list_elem_of_filter.
    by eapply (proj1 (Forall_forall _ _) Hvis). }
  set (q2 := if truthy status then _ else _).
  assert (Forall open_unassigned q2) as Hq2.
  { subst q2. destruct (truthy status); [|done].
    apply Forall_forall. intros x [_ Hx]%list_elem_of_filter.
    by eapply (proj1 (Forall_forall _ _) Hq1). }
  unfold offset_limit. split.
  - intros l. case_bool_decide; [done|]. cbv [ret fst]. intros [= <-].
    assert (Forall open_unassigned
              (take (Z.to_nat limit) (drop (Z.to_nat skip) q2))) as Hl
      by by apply Forall_take, Forall_drop.
    split; [done|].
    eapply Forall_impl; [exact Hl|]. intros x [Hst _] Hne. done.
  - intros Hskip Hlimit. rewrite bool_decide_eq_false_2 by lia. by eexists.
Qed.

Lemma get_tasks_worker_witness :
  fst (get_tasks None None 0 100 Sample.carol Sample.db)
  = Ok [Sample.task 20 10 "open" None; Sample.task 22 10 "open" None;
        Sample.task 23 11 "open" None]
  ∧ Forall open_unassigned
      [Sample.task 20 10 "open" None; Sample.task 22 10 "open" None;
       Sample.task 23 11 "open" None].
Proof.
  split; [reflexivity|].
  apply (proj1 (get_tasks_worker Sample.db Sample.carol None None 0 100
                  eq_refl)).
  reflexivity.
Defined.

Lemma get_project_cases_witness :
  get_project 77 Sample.carol Sample.db
  = (Raise (HTTPException 404 "Project not found"), Sample.db)
  ∧ get_project 10 Sample.bob Sample.db
    = (Raise (HTTPException 403 "Not authorized to view this project"),
       Sample.db)
  ∧ get_project 10 Sample.carol Sample.db
    = (Ok (Sample.project 10 1 "A" 10%float), Sample.db).
Proof.
  destruct (get_project_cases Sample.db) as (Habsent & Hclient & Hworker).
  split_and!.
  - apply Habsent. by_eval.
  - apply (Hclient (Sample.project 10 1 "A" 10%float) Sample.bob).
    + by_eval.
    + unfold Sample.db, projects. in_table.
    + reflexivity.
    + by vm_compute.
  - apply (Hworker (Sample.project 10 1 "A" 10%float) Sample.carol).
    + by_eval.
    + unfold Sample.db, projects. in_table.
    + reflexivity.
Defined.

(** ** Updating a selection of rows in one flush *)

Section bulk_update.
Context {A : Type} (key : A → UUID) (g : A → A) (P : A → Prop).
Context `{!∀ r, Decision (P r)}.
Hypothesis g_key : ∀ r, key (g r) = key r.

(** The UPDATEs of rows with other primary keys pass a row by. *)
Lemma update_rows_cons_other (h : A) (sel rows : list A) :
  (∀ n, n ∈ sel → key n ≠ key h) →
  foldl (λ rows n, update_row key (g n) rows) (h :: rows) sel
  = h :: foldl (λ rows n, update_row key (g n) rows) rows sel.
Proof.
  revert rows. induction sel as [|n sel IH]; intros rows Hne; [done|].
  cbn [foldl]. rewrite update_row_cons, decide_False.
  - apply IH. intros m Hm. apply Hne. by right.
  - rewrite g_key. intros Heq. by apply (Hne n); [left|].
Qed.

(** Updating, one by one, the rows a predicate selects comes to updating
    each selected row in place. *)
Lemma update_selected (rows : list A) :
  NoDup (key <$> rows) →
  foldl (λ rows n, update_row key (g n) rows) rows (filter P rows)
  = (λ r, if decide (P r) then g r else r) <$> rows.
Proof.
  induction rows as [|r rows IH]; intros Hnd; [done|].
  rewrite fmap_cons, NoDup_cons in Hnd. destruct Hnd as [Hr Hnd].
  assert (∀ n, n ∈ filter P rows → key n ≠ key r) as Hsel.
  { intros n [_ Hn]%list_elem_of_filter Heq. apply Hr. rewrite <- Heq.
    by apply list_elem_of_fmap_2. }
  rewrite fmap_cons. destruct (decide (P r)) as [HP|HP].
  - rewrite filter_cons_True by done. cbn [foldl].
    rewrite update_row_cons, decide_True by (by rewrite g_key).
    rewrite update_row_absent by (by rewrite g_key).
    rewrite update_rows_cons_other.
    + by rewrite IH.
    + intros n Hn. rewrite g_key. by apply Hsel.
  - rewrite filter_cons_False by done.
    rewrite update_rows_cons_other by done. by rewrite IH.
Qed.
End bulk_update.

(** ** mark all as read *)

Lemma flush_all_notifications now (l : list Notification.t) db :
  Forall (λ n, notification_ok db n) l →
  flush_all now (UpdateNotification <$> l) db
  = Some (set_notifications
            (foldl (λ rows n,
                      update_row Notification.id
                        (Notification.set_updated_at now n) rows)
               (notifications db) l) db).
Proof.
  revert db. induction l as [|n l IH]; intros db Hl.
  - by destruct db.
  - apply Forall_cons in Hl as [Hn Hl].
    rewrite fmap_cons. cbn [flush_all flush].
    rewrite (Is_true_true_1 _ Hn), IH by done. by destruct db.
Qed.

(** C8, as stated, fails: the response of [mark_all_notifications_read] has
    no [count] field.  Carol has three unread and two read notifications;
    the response is the single field [message], with the count in its
    text. *)
Lemma mark_all_notifications_read_no_count :
  match fst (mark_all_notifications_read 999 Sample.carol Sample.db) with
  | Ok response =>
      response !! "count" = None
      ∧ response !! "message" = Some (JString "Marked 3 notifications as read")
  | Raise _ => False
  end.
Proof. vm_compute. done. Qed.

(** C8, amended: [mark_all_notifications_read] sets [read] on every
    notification of the user that had [read == false] and on no other row,
    in one commit, and returns a response whose only field is [message],
    the text "Marked n notifications as read" with n the number of
    notifications it flipped.  Afterwards the user has no notification with
    [read == false], and the notifications of other users are the rows they
    were. *)
Theorem mark_all_notifications_read_spec now db current_user :
  wf db →
  mark_all_notifications_read now current_user db
  = (Ok {[ "message" :=
             JString ("Marked "
                      +:+ pretty (length (filter (unread_of current_user)
                                            (notifications db)))
                      +:+ " notifications as read") ]},
     all_read now current_user db)
  ∧ (∀ n, n ∈ notifications db → unread_of current_user n →
          marked_read now n ∈ notifications (all_read now current_user db)
          ∧ Notification.read (marked_read now n) = Some true)
  ∧ Forall (λ n, ¬ unread_of current_user n)
      (notifications (all_read now current_user db))
  ∧ (∀ n, Notification.user_id n ≠ User.id current_user →
          n ∈ notifications (all_read now current_user db)
          ↔ n ∈ notifications db).
Proof.
  intros Hwf. split_and!.
  - unfold mark_all_notifications_read.
    unfold bind at 1, execute at 1.
    fold (unread_of current_user).
    unfold bind, commit. rewrite flush_all_notifications; cycle 1.
    { apply Forall_fmap, Forall_forall.
      intros n [_ Hn]%list_elem_of_filter. destruct n.
      by apply (wf_notification_ok db _ Hwf Hn). }
    rewrite foldl_fmap.
    rewrite (update_selected Notification.id (marked_read now)
               (unread_of current_user));
      [done| by intros []|by apply wf_notifications_pk].
  - intros n Hn Hun. split; [|by destruct n].
    unfold all_read. cbn [notifications set_notifications].
    apply list_elem_of_fmap. exists n. by rewrite decide_True.
  - unfold all_read. cbn [notifications set_notifications].
    apply Forall_fmap, Forall_forall. intros n _. simpl.
    case_decide as Hun; [|done]. destruct n. by intros [_ [=]].
  - intros n Hother. unfold all_read. cbn [notifications set_notifications].
    rewrite list_elem_of_fmap. split.
    + intros (r & -> & Hr). case_decide as Hun; [|done].
      destruct Hun as [Hu _]. destruct r. simpl in *. done.
    + intros Hn. exists n. split; [|done].
      rewrite decide_False; [done|]. by intros [? _].
Qed.

Lemma mark_all_notifications_read_spec_witness :
  mark_all_notifications_read 999 Sample.carol Sample.db
  = (Ok {[ "message" := JString "Marked 3 notifications as read" ]},
     all_read 999 Sample.carol Sample.db)
  ∧ Notification.read <$> filter (λ n, Notification.user_id n = 3%N)
                            (notifications (all_read 999 Sample.carol Sample.db))
    = [Some true; Some true; Some true; Some true; Some true].
Proof.
  split; [|reflexivity].
  assert (wf Sample.db) as Hwf by by_eval.
  exact (proj1 (mark_all_notifications_read_spec 999 Sample.db Sample.carol Hwf)).
Defined.

(** ** Partial update *)

Lemma setattr_loop_project u p :
  foldl Project_setattr p (ProjectUpdate.dict_exclude_unset u)
  = patched_project u p.
Proof.
  destruct p. destruct u as [[|?] [|?] [|?] [|?] [|?]]; reflexivity.
Qed.

Lemma setattr_loop_task u x :
  foldl Task_setattr x (TaskUpdate.dict_exclude_unset u) = patched_task u x.
Proof.
  destruct x.
  destruct u as [[|?] [|?] [|?] [|?] [|?] [|?] [|?] [|?] [|?] [|?] [|?] [|?]];
    reflexivity.
Qed.

(** *** The columns of the UPDATE *)

Section net_change.
Context {R I : Type} (setattr : R → I → R) (changes : I → bool).

(** The assignments that change an attribute, field by field of the
    request. *)
Lemma net_item {V} (key : V → I) (f : field V) (rest : list I) (acc : R) :
  foldl setattr acc (filter (λ it, changes it) (item_of key f ++ rest)%list)
  = foldl setattr (net_step setattr changes key f acc)
      (filter (λ it, changes it) rest).
Proof.
  destruct f as [|v]; [done|]. cbn [item_of app net_step].
  rewrite filter_cons. by destruct (changes (key v)).
Qed.

(** A field compared by identity: what the UPDATE leaves is the value the
    request gives, if any. *)
Lemma net_field {V} `{EqDecision V} (key : V → I) (set : V → R → R)
    (f : field V) (acc : R) (old : V) :
  (∀ v, changes (key v) = bool_decide (v ≠ old)) →
  (∀ v, setattr acc (key v) = set v acc) →
  set old acc = acc →
  net_step setattr changes key f acc = set (value_or old f) acc.
Proof.
  intros Hchanges Hset Hold. destruct f as [|v]; simpl; [done|].
  rewrite Hchanges, Hset. case_bool_decide as Hne; [done|].
  by subst.
Qed.

(** A [Float] field. *)
Lemma net_float (key : option float → I) (set : option float → R → R)
    (f : field (option float)) (acc : R) (old : option float) :
  (∀ v, changes (key v) = negb (float_eq v old)) →
  (∀ v, setattr acc (key v) = set v acc) →
  set old acc = acc →
  net_step setattr changes key f acc = set (kept old (value_or old f)) acc.
Proof.
  intros Hchanges Hset Hold. unfold kept. destruct f as [|v]; simpl.
  - by destruct (float_eq old old).
  - rewrite Hchanges, Hset. by destruct (float_eq v old).
Qed.
End net_change.

(** The UPDATE of [update_project] leaves the row [stored_project]. *)
Lemma net_update_project u p :
  foldl Project_setattr p
    (filter (λ it, Project_changes p it) (ProjectUpdate.dict_exclude_unset u))
  = stored_project u p.
Proof.
  destruct p as [i c ti d g b s ca ua]. destruct u as [fti fd fg fb fs].
  unfold ProjectUpdate.dict_exclude_unset.
  cbn [ProjectUpdate.title ProjectUpdate.description ProjectUpdate.tags
       ProjectUpdate.budget ProjectUpdate.status].
  rewrite <- (app_nil_r (item_of ProjectUpdate.Status fs)).
  rewrite !net_item, filter_nil. cbn [foldl].
  rewrite (net_field Project_setattr _ ProjectUpdate.Title
             Project.set_title _ _ ti) by (intros; reflexivity).
  rewrite (net_field Project_setattr _ ProjectUpdate.Description
             Project.set_description _ _ d) by (intros; reflexivity).
  rewrite (net_field Project_setattr _ ProjectUpdate.Tags
             Project.set_tags _ _ g) by (intros; reflexivity).
  rewrite (net_float Project_setattr _ ProjectUpdate.Budget
             Project.set_budget _ _ b) by (intros; reflexivity).
  rewrite (net_field Project_setattr _ ProjectUpdate.Status
             Project.set_status _ _ s) by (intros; reflexivity).
  reflexivity.
Qed.

(** The UPDATE of [update_task] leaves the row [stored_task]. *)
Lemma net_update_task u x :
  foldl Task_setattr x
    (filter (λ it, Task_changes x it) (TaskUpdate.dict_exclude_unset u))
  = stored_task u x.
Proof.
  destruct x as [i p ti d w a s po dl pt hr eh rs aa aw ca ua].
  destruct u as [fti fd fw fpo fdl fs fa fpt fhr feh frs faa].
  unfold TaskUpdate.dict_exclude_unset.
  cbn [TaskUpdate.title TaskUpdate.description TaskUpdate.weight
       TaskUpdate.payout TaskUpdate.deadline TaskUpdate.status
       TaskUpdate.assignee_id TaskUpdate.pricing_type TaskUpdate.hourly_rate
       TaskUpdate.estimated_hours TaskUpdate.required_skills
       TaskUpdate.auto_assign].
  rewrite <- (app_nil_r (item_of TaskUpdate.AutoAssign faa)).
  rewrite !net_item, filter_nil. cbn [foldl].
  rewrite (net_field Task_setattr _ TaskUpdate.Title
             Task.set_title _ _ ti) by (intros; reflexivity).
  rewrite (net_field Task_setattr _ TaskUpdate.Description
             Task.set_description _ _ d) by (intros; reflexivity).
  rewrite (net_field Task_setattr _ TaskUpdate.Weight
             Task.set_weight _ _ w) by (intros; reflexivity).
  rewrite (net_float Task_setattr _ TaskUpdate.Payout
             Task.set_payout _ _ po) by (intros; reflexivity).
  rewrite (net_field Task_setattr _ TaskUpdate.Deadline
             Task.set_deadline _ _ dl) by (intros; reflexivity).
  rewrite (net_field Task_setattr _ TaskUpdate.Status
             Task.set_status _ _ s) by (intros; reflexivity).
  rewrite (net_field Task_setattr _ TaskUpdate.AssigneeId
             Task.set_assignee_id _ _ a) by (intros; reflexivity).
  rewrite (net_field Task_setattr _ TaskUpdate.PricingType
             Task.set_pricing_type _ _ pt) by (intros; reflexivity).
  rewrite (net_float Task_setattr _ TaskUpdate.HourlyRate
             Task.set_hourly_rate _ _ hr) by (intros; reflexivity).
  rewrite (net_field Task_setattr _ TaskUpdate.EstimatedHours
             Task.set_estimated_hours _ _ eh) by (intros; reflexivity).
  rewrite (net_field Task_setattr _ TaskUpdate.RequiredSkills
             Task.set_required_skills _ _ rs) by (intros; reflexivity).
  rewrite (net_field Task_setattr _ TaskUpdate.AutoAssign
             Task.set_auto_assign _ _ aa) by (intros; reflexivity).
  reflexivity.
Qed.

(** What the owner's [update_project] does, by cases: nothing to flush for a
    request that changes no attribute; otherwise one UPDATE of the row, which
    the store refuses when a NOT NULL column would become null. *)
Lemma update_project_run now db current_user p u :
  wf db → p ∈ projects db → Project.client_id p = User.id current_user →
  update_project now (Project.id p) u current_user db
  = match filter (λ it, Project_changes p it)
            (ProjectUpdate.dict_exclude_unset u) with
    | [] => (Ok p, db)
    | _ :: _ =>
        if Project.not_null (stored_project u p)
        then (Ok (Project.set_updated_at now (stored_project u p)),
              set_projects
                (update_row Project.id
                   (Project.set_updated_at now (stored_project u p))
                   (projects db)) db)
        else (Raise IntegrityError, db)
    end.
Proof.
  intros Hwf Hp Hown.
  unfold update_project. unfold bind at 1, execute at 1.
  rewrite select_by_key by auto using wf_projects_pk.
  cbv [bind scalar_one_or_none ret].
  rewrite decide_False by (by intros []).
  rewrite setattr_loop_project. unfold Project_pending.
  generalize (net_update_project u p).
  destruct (filter _ (ProjectUpdate.dict_exclude_unset u)) as [|it its];
    intros Hnet.
  - cbv [commit flush_all refresh_project bind execute].
    change (Project.id (patched_project u p)) with (Project.id p).
    by rewrite select_by_key by auto using wf_projects_pk.
  - rewrite Hnet. cbv [commit flush_all flush refusal unbindable project_ok].
    replace (Project.client_id (stored_project u p))
      with (Project.client_id p) by (by destruct p).
    pose proof (wf_project_ok _ _ Hwf Hp) as Hok.
    unfold project_ok in Hok. apply andb_True in Hok as [_ Hfk].
    rewrite (Is_true_true_1 _ Hfk), andb_true_r.
    destruct (Project.not_null (stored_project u p)); [|done].
    cbv [refresh_project bind execute projects set_projects].
    change (Project.id (patched_project u p)) with (Project.id p).
    rewrite (select_updated Project.id (projects db) p)
      by (auto using wf_projects_pk; by destruct p).
    done.
Qed.

Lemma Task_project_owner db x p :
  wf db → p ∈ projects db → Task.project_id x = Project.id p →
  Task_project x db = Some p.
Proof.
  intros Hwf Hp Hx. unfold Task_project. rewrite Hx.
  by rewrite select_by_key by auto using wf_projects_pk.
Qed.

(** What [update_task] does once it has let the request through, by cases:
    nothing to flush for a request that changes no attribute; otherwise one
    UPDATE of the row.  The driver refuses an integer that does not fit its
    column, the store a NOT NULL column that would become null or an
    [assignee_id] that is no user's id. *)
Lemma update_task_flush now db u x :
  wf db → x ∈ tasks db →
  (commit now (Task_pending x (TaskUpdate.dict_exclude_unset u)) ;;
   refresh_task (foldl Task_setattr x (TaskUpdate.dict_exclude_unset u))) db
  = match filter (λ it, Task_changes x it)
            (TaskUpdate.dict_exclude_unset u) with
    | [] => (Ok x, db)
    | _ :: _ =>
        if task_ok db (stored_task u x)
        then (Ok (Task.set_updated_at now (stored_task u x)),
              set_tasks
                (update_row Task.id
                   (Task.set_updated_at now (stored_task u x))
                   (tasks db)) db)
        else (Raise (if Task.in_range (stored_task u x)
                     then IntegrityError else DataError), db)
    end.
Proof.
  intros Hwf Hx.
  rewrite setattr_loop_task. unfold Task_pending.
  generalize (net_update_task u x).
  destruct (filter _ (TaskUpdate.dict_exclude_unset u)) as [|it its];
    intros Hnet.
  - cbv [commit flush_all refresh_task bind execute].
    change (Task.id (patched_task u x)) with (Task.id x).
    by rewrite select_by_key by auto using wf_tasks_pk.
  - rewrite Hnet. cbv [bind commit flush_all flush refusal unbindable].
    destruct (task_ok db (stored_task u x)).
    + cbv [refresh_task bind execute tasks set_tasks].
      change (Task.id (patched_task u x)) with (Task.id x).
      rewrite (select_updated Task.id (tasks db) x)
        by (auto using wf_tasks_pk; by destruct x).
      done.
    + by destruct (Task.in_range (stored_task u x)).
Qed.
















(** ** Creating a task and reading it back *)







(** The bound on the integers is needed: a [weight] of 2^31 does not fit
    the column, the driver refuses the INSERT and nothing is stored. *)
Lemma create_task_weight_out_of_range :
  create_task 999 24
    (TaskCreate.mk "t" "d" (Given 2147483648) 5%float Unset Unset Unset Unset
       Unset Unset Unset 10) Sample.alice Sample.db
  = (Raise DataError, Sample.db).
Proof. reflexivity. Qed.


(** ** The handlers keep the constraints of the schema *)

Lemma task_ok_ext db db' x :
  users db' = users db →
  Project.id <$> projects db' = Project.id <$> projects db →
  task_ok db' x = task_ok db x.
Proof.
  intros Hu Hp. unfold task_ok, fk_users. by rewrite Hu, Hp.
Qed.

Lemma keys_filter_sub {A} (key : A → UUID) (P : A → Prop)
    `{!∀ r, Decision (P r)} (rows : list A) :
  NoDup (key <$> rows) → NoDup (key <$> filter P rows).
Proof.
  intros Hnd. eapply sublist_NoDup; [exact Hnd|].
  apply fmap_sublist, sublist_filter.
Qed.

Lemma Forall_update_row {A} (key : A → UUID) (Q : A → Prop) x (rows : list A) :
  Q x → Forall Q rows → Forall Q (update_row key x rows).
Proof.
  intros Hx Hrows. apply Forall_fmap, Forall_forall.
  intros r Hr. simpl. case_decide; [done|].
  by eapply (proj1 (Forall_forall _ _) Hrows).
Qed.

(** Every statement the store accepts leaves it satisfying the constraints. *)
Lemma flush_wf now w db db' : wf db → flush now w db = Some db' → wf db'.
Proof.
  intros (Hu & Hp & Ht & Hn & Hpok & Htok & Hnok).
  destruct w as [x|x|p|p|n]; cbn [flush].
  - destruct (task_ok db x) eqn:Hok; [|done].
    case_bool_decide as Hfresh; [|done]. intros [= <-].
    unfold wf. cbn [users projects tasks notifications set_tasks].
    split_and!; try done.
    + rewrite fmap_app. apply NoDup_app. split_and!; [done| |apply NoDup_singleton].
      intros k Hk ->%list_elem_of_singleton. done.
    + apply Forall_app. split; [done|]. apply Forall_singleton.
      by apply Is_true_true_2.
  - destruct (task_ok db x) eqn:Hok; [|done]. intros [= <-].
    unfold wf. cbn [users projects tasks notifications set_tasks].
    split_and!; try done.
    + by rewrite update_row_keys.
    + apply Forall_update_row; [|done].
      apply Is_true_true_2 in Hok.
      pose proof (task_ok_range _ _ Hok) as Hrg.
      apply task_ok_inv in Hok as (? & ? & ?).
      apply task_ok_intro; by destruct x.
  - destruct (project_ok db p) eqn:Hok; [|done]. intros [= <-].
    unfold wf. cbn [users projects tasks notifications set_projects].
    split_and!; try done.
    + by rewrite update_row_keys.
    + apply Forall_update_row; [|done].
      apply Is_true_true_2 in Hok. revert Hok. unfold project_ok.
      rewrite !andb_True. by destruct p.
    + eapply Forall_impl; [exact Htok|]. intros y Hy.
      erewrite task_ok_ext; [exact Hy|done|].
      cbn [projects set_projects]. by rewrite update_row_keys.
  - intros [= <-].
    unfold wf. cbn [users projects tasks notifications set_projects set_tasks].
    split_and!; try done.
    + by apply keys_filter_sub.
    + by apply keys_filter_sub.
    + apply Forall_forall. intros r [_ Hr]%list_elem_of_filter.
      by eapply (proj1 (Forall_forall _ _) Hpok).
    + apply Forall_forall. intros y [Hne Hy]%list_elem_of_filter.
      pose proof (proj1 (Forall_forall _ _) Htok y Hy) as Hok.
      pose proof (task_ok_range _ _ Hok) as Hrg.
      apply task_ok_inv in Hok as (? & Hfk & ?).
      apply task_ok_intro; [done|done| |done].
      cbn [projects].
      apply list_elem_of_fmap in Hfk as (r & Hr & Hin).
      apply list_elem_of_fmap. exists r. split; [done|].
      apply list_elem_of_filter. split; [congruence|done].
  - destruct (notification_ok db n) eqn:Hok; [|done]. intros [= <-].
    unfold wf. cbn [users projects tasks notifications set_notifications].
    split_and!; try done.
    + by rewrite update_row_keys.
    + apply Forall_update_row; [|done].
      apply Is_true_true_2 in Hok. by destruct n.
Qed.

Lemma flush_all_wf now ws db db' :
  wf db → flush_all now ws db = Some db' → wf db'.
Proof.
  revert db. induction ws as [|w ws IH]; intros db Hwf; cbn [flush_all].
  - by intros [= <-].
  - destruct (flush now w db) as [db1|] eqn:Hw; [|done].
    apply IH. by eapply flush_wf.
Qed.

Lemma preserves_ret {A} (a : A) : preserves (ret a).
Proof. by intros db. Qed.

Lemma preserves_raise {A} e : preserves (@raise A e).
Proof. by intros db. Qed.

Lemma preserves_execute {A} (q : Store → A) : preserves (execute q).
Proof. by intros db. Qed.

Lemma preserves_bind {A B} (c : M A) (k : A → M B) :
  preserves c → (∀ a, preserves (k a)) → preserves (bind c k).
Proof.
  intros Hc Hk db Hwf. unfold bind. specialize (Hc db Hwf).
  destruct (c db) as [[a|e] db1]; [|done]. by apply Hk.
Qed.

Lemma preserves_commit now ws : preserves (commit now ws).
Proof.
  intros db Hwf. unfold commit.
  destruct (flush_all now ws db) as [db1|] eqn:Hws; [|done].
  by eapply flush_all_wf.
Qed.

Lemma preserves_scalar_one_or_none {A} (rows : list A) :
  preserves (scalar_one_or_none rows).
Proof. destruct rows as [|? [|? ?]]; by intros db. Qed.

Lemma preserves_offset_limit {A} skip limit (rows : list A) :
  preserves (offset_limit skip limit rows).
Proof. unfold offset_limit. case_bool_decide; by intros db. Qed.

Lemma preserves_client_id_of project : preserves (client_id_of project).
Proof. destruct project; by intros db. Qed.

Lemma preserves_refresh_task x : preserves (refresh_task x).
Proof.
  apply preserves_bind; [apply preserves_execute|].
  intros [|? [|? ?]]; by intros db.
Qed.

Lemma preserves_refresh_project p : preserves (refresh_project p).
Proof.
  apply preserves_bind; [apply preserves_execute|].
  intros [|? [|? ?]]; by intros db.
Qed.

(** One step through a handler: a primitive, a sequence, or a branch. *)
Ltac preserves_step :=
  first
    [ apply preserves_ret | apply preserves_raise | apply preserves_execute
    | apply preserves_commit | apply preserves_scalar_one_or_none
    | apply preserves_offset_limit | apply preserves_client_id_of
    | apply preserves_refresh_task | apply preserves_refresh_project
    | apply preserves_bind; [|intros ?]
    | match goal with
      | |- preserves (match ?s with _ => _ end) => destruct s
      end ].

(** Whatever the request, each handler leaves a store that satisfies the
    constraints when it started from one. *)
Theorem handlers_preserve_wf :
  (∀ now new_id task_data u, preserves (create_task now new_id task_data u))
  ∧ (∀ project_id status skip limit u,
       preserves (get_tasks project_id status skip limit u))
  ∧ (∀ task_id u, preserves (get_task task_id u))
  ∧ (∀ now task_id task_update u,
       preserves (update_task now task_id task_update u))
  ∧ (∀ now task_id u, preserves (claim_task now task_id u))
  ∧ (∀ project_id u, preserves (get_project project_id u))
  ∧ (∀ now project_id project_update u,
       preserves (update_project now project_id project_update u))
  ∧ (∀ now project_id u, preserves (delete_project now project_id u))
  ∧ (∀ now u, preserves (mark_all_notifications_read now u)).
Proof.
  split_and!; intros;
    [ unfold create_task | unfold get_tasks | unfold get_task
    | unfold update_task | unfold claim_task | unfold get_project
    | unfold update_project | unfold delete_project
    | unfold mark_all_notifications_read ];
    repeat preserves_step.
Qed.

(** * The other handlers and further properties *)

(** ** More on primary keys *)

Section by_key_more.
Context {A : Type} (key : A → UUID).
Implicit Types (x r : A) (rows : list A) (k : UUID).

(** Two rows of a table with the same primary key are one row. *)
Lemma pk_inj rows x r :
  NoDup (key <$> rows) → x ∈ rows → r ∈ rows → key x = key r → x = r.
Proof.
  intros Hnd Hx Hr Hk.
  pose proof (select_by_key key rows x Hnd Hx) as Hsel.
  assert (r ∈ filter (λ r, key r = key x) rows) as Hin
    by (by apply list_elem_of_filter).
  rewrite Hsel in Hin. by apply list_elem_of_singleton in Hin.
Qed.

(** A primary-key lookup finds nothing or exactly one row. *)
Lemma select_pk_cases rows k :
  NoDup (key <$> rows) →
  ((k ∉ key <$> rows) ∧ filter (λ r, key r = k) rows = [])
  ∨ ∃ x, x ∈ rows ∧ key x = k ∧ filter (λ r, key r = k) rows = [x].
Proof.
  intros Hnd. destruct (decide (k ∈ key <$> rows)) as [Hin|Hout].
  - right. apply list_elem_of_fmap in Hin as (x & -> & Hx).
    exists x. split_and!; [done..|by apply select_by_key].
  - left. split; [done|]. by apply select_absent.
Qed.

(** Deleting by primary key removes the row and no other. *)
Lemma delete_by_key rows x r :
  r ∈ filter (λ r, key r ≠ key x) rows ↔ r ∈ rows ∧ key r ≠ key x.
Proof. rewrite list_elem_of_filter. tauto. Qed.

Lemma deleted_absent rows x :
  key x ∉ key <$> filter (λ r, key r ≠ key x) rows.
Proof.
  intros (r & Hk & [Hne _]%list_elem_of_filter)%list_elem_of_fmap. done.
Qed.
End by_key_more.

(** ** The other handlers keep the constraints of the schema *)

Lemma apply_change_wf now c db db' :
  wf db → apply_change now c db = Some db' → wf db'.
Proof.
  intros Hwf. destruct c as [w|p|x|n]; cbn [apply_change].
  - by apply flush_wf.
  - destruct Hwf as (Hu & Hp & Ht & Hn & Hpok & Htok & Hnok).
    destruct (project_ok db p) eqn:Hok; [|done].
    case_bool_decide as Hfresh; [|done]. intros [= <-].
    unfold wf. cbn [users projects tasks notifications set_projects].
    split_and!; try done.
    + rewrite fmap_app. apply NoDup_app.
      split_and!; [done| |apply NoDup_singleton].
      intros k Hk ->%list_elem_of_singleton. done.
    + apply Forall_app. split; [done|]. apply Forall_singleton.
      by apply Is_true_true_2.
    + eapply Forall_impl; [exact Htok|]. intros y Hy.
      pose proof (task_ok_range _ _ Hy) as Hrg.
      apply task_ok_inv in Hy as (? & Hfk & ?).
      apply task_ok_intro; [done|done| |done].
      cbn [projects set_projects]. rewrite fmap_app. apply elem_of_app. by left.
  - destruct Hwf as (Hu & Hp & Ht & Hn & Hpok & Htok & Hnok).
    intros [= <-].
    unfold wf. cbn [users projects tasks notifications set_tasks].
    split_and!; try done.
    + by apply keys_filter_sub.
    + apply Forall_forall. intros y [_ Hy]%list_elem_of_filter.
      by eapply (proj1 (Forall_forall _ _) Htok).
  - destruct Hwf as (Hu & Hp & Ht & Hn & Hpok & Htok & Hnok).
    intros [= <-].
    unfold wf. cbn [users projects tasks notifications set_notifications].
    split_and!; try done.
    + by apply keys_filter_sub.
    + apply Forall_forall. intros y [_ Hy]%list_elem_of_filter.
      by eapply (proj1 (Forall_forall _ _) Hnok).
Qed.

Lemma apply_changes_wf now cs db db' :
  wf db → apply_changes now cs db = Some db' → wf db'.
Proof.
  revert db. induction cs as [|c cs IH]; intros db Hwf; cbn [apply_changes].
  - by intros [= <-].
  - destruct (apply_change now c db) as [db1|] eqn:Hc; [|done].
    apply IH. by eapply apply_change_wf.
Qed.

Lemma preserves_commit_changes now cs : preserves (commit_changes now cs).
Proof.
  intros db Hwf. unfold commit_changes.
  destruct (apply_changes now cs db) as [db1|] eqn:Hcs; [|done].
  by eapply apply_changes_wf.
Qed.

Lemma preserves_refresh_notification n : preserves (refresh_notification n).
Proof.
  apply preserves_bind; [apply preserves_execute|].
  intros [|? [|? ?]]; by intros db.
Qed.

Ltac preserves_more :=
  first
    [ preserves_step
    | apply preserves_commit_changes
    | apply preserves_refresh_notification ].

Lemma other_handlers_preserve_wf :
  (∀ u, preserves (get_my_tasks u))
  ∧ (∀ now task_id u, preserves (delete_task now task_id u))
  ∧ (∀ now new_id project_data u,
       preserves (create_project now new_id project_data u))
  ∧ (∀ skip limit u, preserves (get_projects skip limit u))
  ∧ (∀ skip limit unread_only u,
       preserves (get_notifications skip limit unread_only u))
  ∧ (∀ now notification_id u,
       preserves (mark_notification_read now notification_id u))
  ∧ (∀ now notification_id u,
       preserves (delete_notification now notification_id u)).
Proof.
  split_and!; intros;
    [ unfold get_my_tasks | unfold delete_task | unfold create_project
    | unfold get_projects | unfold get_notifications
    | unfold mark_notification_read | unfold delete_notification ];
    repeat preserves_more.
Qed.

(** X1: whatever the request and the actor, each of the sixteen handlers
    leaves a store that satisfies the constraints of the schema (unique
    primary keys, filled NOT NULL columns, foreign keys that point to rows)
    when it started from one, whether it returns or raises. *)
Theorem schema_constraints_invariant db :
  wf db →
  (∀ now new_id task_data u, wf (snd (create_task now new_id task_data u db)))
  ∧ (∀ project_id status skip limit u,
       wf (snd (get_tasks project_id status skip limit u db)))
  ∧ (∀ u, wf (snd (get_my_tasks u db)))
  ∧ (∀ task_id u, wf (snd (get_task task_id u db)))
  ∧ (∀ now task_id task_update u,
       wf (snd (update_task now task_id task_update u db)))
  ∧ (∀ now task_id u, wf (snd (claim_task now task_id u db)))
  ∧ (∀ now task_id u, wf (snd (delete_task now task_id u db)))
  ∧ (∀ now new_id project_data u,
       wf (snd (create_project now new_id project_data u db)))
  ∧ (∀ skip limit u, wf (snd (get_projects skip limit u db)))
  ∧ (∀ project_id u, wf (snd (get_project project_id u db)))
  ∧ (∀ now project_id project_update u,
       wf (snd (update_project now project_id project_update u db)))
  ∧ (∀ now project_id u, wf (snd (delete_project now project_id u db)))
  ∧ (∀ skip limit unread_only u,
       wf (snd (get_notifications skip limit unread_only u db)))
  ∧ (∀ now notification_id u,
       wf (snd (mark_notification_read now notification_id u db)))
  ∧ (∀ now u, wf (snd (mark_all_notifications_read now u db)))
  ∧ (∀ now notification_id u,
       wf (snd (delete_notification now notification_id u db))).
Proof.
  intros Hwf.
  destruct handlers_preserve_wf
    as (Hct & Hgts & Hgt & Hut & Hcl & Hgp & Hup & Hdp & Hma).
  destruct other_handlers_preserve_wf
    as (Hmy & Hdt & Hcp & Hgps & Hgn & Hmn & Hdn).
  split_and!; intros.
  - by apply Hct.
  - by apply Hgts.
  - by apply Hmy.
  - by apply Hgt.
  - by apply Hut.
  - by apply Hcl.
  - by apply Hdt.
  - by apply Hcp.
  - by apply Hgps.
  - by apply Hgp.
  - by apply Hup.
  - by apply Hdp.
  - by apply Hgn.
  - by apply Hmn.
  - by apply Hma.
  - by apply Hdn.
Qed.

Lemma schema_constraints_invariant_witness :
  wf (snd (claim_task 999 20 Sample.carol Sample.db))
  ∧ wf (snd (delete_task 999 21 Sample.alice Sample.db)).
Proof.
  assert (wf Sample.db) as Hwf by by_eval.
  destruct (schema_constraints_invariant Sample.db Hwf)
    as (_ & _ & _ & _ & _ & Hclaim & Hdelete & _).
  split; [apply Hclaim|apply Hdelete].
Defined.

(** ** More on claiming *)

(** What a successful claim does ([claimed] is the new row). *)
Lemma claim_task_run now db w x :
  wf db → w ∈ users db → User.role w = "worker" →
  x ∈ tasks db → Task.status x = Some "open" → Task.assignee_id x = None →
  claim_task now (Task.id x) w db
  = (Ok (claimed now w x),
     set_tasks (update_row Task.id (claimed now w x) (tasks db)) db).
Proof.
  intros Hwf Hw Hrole Hx Hst Has.
  unfold claim_task. rewrite decide_False by (by intros []).
  unfold bind at 1, execute at 1.
  rewrite select_by_key by auto using wf_tasks_pk.
  cbv [bind scalar_one_or_none ret].
  rewrite decide_False by (intros [?|?]; congruence).
  pose proof (task_ok_inv _ _ (wf_task_ok _ _ Hwf Hx)) as (Hnn & Hfk & _).
  pose proof (wf_task_range _ _ Hwf Hx) as Hrg.
  assert (task_ok db (Task.set_status (Some "assigned")
                        (Task.set_assignee_id (Some (User.id w)) x))) as Hok.
  { apply task_ok_intro; destruct x; try done.
    by apply (fk_users_elem_of db w). }
  cbv [commit flush_all flush]. rewrite (Is_true_true_1 _ Hok).
  cbv [refresh_task bind execute tasks set_tasks].
  replace (Task.id (Task.set_status _ _)) with (Task.id x) by (by destruct x).
  fold (claimed now w x).
  rewrite (select_updated Task.id (tasks db) x) by
    (auto using wf_tasks_pk; by destruct x).
  done.
Qed.

Lemma claimed_in_store now db w x :
  x ∈ tasks db →
  claimed now w x ∈ update_row Task.id (claimed now w x) (tasks db).
Proof.
  intros Hx. unfold update_row. apply list_elem_of_fmap. exists x.
  split; [|done]. rewrite decide_True; [done|]. by destruct x.
Qed.

(** A claim that [claim_task] refuses, on an existing task. *)
Lemma claim_task_taken now db w x :
  wf db → User.role w = "worker" → x ∈ tasks db →
  Task.status x ≠ Some "open" ∨ Task.assignee_id x ≠ None →
  claim_task now (Task.id x) w db
  = (Raise (HTTPException 400 "Task is not available for claiming"), db).
Proof.
  intros Hwf Hrole Hx Hun.
  unfold claim_task. rewrite decide_False by (by intros []).
  unfold bind at 1, execute at 1.
  rewrite select_by_key by auto using wf_tasks_pk.
  cbv [bind scalar_one_or_none ret].
  by rewrite decide_True.
Qed.

(** X2: a task is claimed once.  After a worker's successful claim, every
    further claim of the same task by a worker, the same one or another, is
    refused with 400 "Task is not available for claiming" and changes
    nothing: the task stays with the first claimant. *)
Theorem claim_task_once now now' db w w' x :
  wf db → w ∈ users db → User.role w = "worker" →
  x ∈ tasks db → Task.status x = Some "open" → Task.assignee_id x = None →
  User.role w' = "worker" →
  ∃ x1 db1,
    claim_task now (Task.id x) w db = (Ok x1, db1)
    ∧ claim_task now' (Task.id x) w' db1
      = (Raise (HTTPException 400 "Task is not available for claiming"), db1)
    ∧ x1 ∈ tasks db1
    ∧ Task.assignee_id x1 = Some (User.id w).
Proof.
  intros Hwf Hw Hrole Hx Hst Has Hrole'.
  pose proof (claim_task_run now db w x Hwf Hw Hrole Hx Hst Has) as Hrun.
  eexists _, _. split; [exact Hrun|].
  assert (claimed now w x
          ∈ tasks (set_tasks (update_row Task.id (claimed now w x) (tasks db))
                     db)) as Hin.
  { cbn [tasks set_tasks]. by apply claimed_in_store. }
  split_and!; [|done|by destruct x].
  replace (Task.id x) with (Task.id (claimed now w x)) by (by destruct x).
  apply claim_task_taken; [|done|done|left; by destruct x].
  destruct handlers_preserve_wf as (_ & _ & _ & _ & Hcl & _).
  specialize (Hcl now (Task.id x) w db Hwf). by rewrite Hrun in Hcl.
Qed.

Lemma claim_task_once_witness :
  ∃ x1 db1,
    claim_task 999 20 Sample.carol Sample.db = (Ok x1, db1)
    ∧ claim_task 1000 20 Sample.dave db1
      = (Raise (HTTPException 400 "Task is not available for claiming"), db1)
    ∧ x1 ∈ tasks db1
    ∧ Task.assignee_id x1 = Some 3%N.
Proof.
  apply (claim_task_once 999 1000 Sample.db Sample.carol Sample.dave
           (Sample.task 20 10 "open" None)).
  - by_eval.
  - unfold Sample.db, users. in_table.
  - reflexivity.
  - unfold Sample.db, tasks. in_table.
  - reflexivity.
  - reflexivity.
  - reflexivity.
Defined.

(** X3: a worker's claim of an id that no task has is answered 404 "Task not
    found" and changes nothing. *)
Theorem claim_task_missing now db w task_id :
  User.role w = "worker" → task_id ∉ Task.id <$> tasks db →
  claim_task now task_id w db
  = (Raise (HTTPException 404 "Task not found"), db).
Proof.
  intros Hrole Hout.
  unfold claim_task. rewrite decide_False by (by intros []).
  unfold bind at 1, execute at 1. by rewrite select_absent.
Qed.

Lemma claim_task_missing_witness :
  claim_task 999 77 Sample.carol Sample.db
  = (Raise (HTTPException 404 "Task not found"), Sample.db).
Proof.
  apply (claim_task_missing 999 Sample.db Sample.carol 77).
  - reflexivity.
  - by_eval.
Defined.

(** ** Paging and the task list *)

Lemma offset_limit_ok {A} skip limit (rows : list A) db l :
  fst (offset_limit skip limit rows db) = Ok l →
  l `sublist_of` rows ∧ (length l ≤ Z.to_nat limit)%nat.
Proof.
  unfold offset_limit. case_bool_decide; [done|]. cbv [ret fst].
  intros [= <-]. split.
  - etrans; [apply sublist_take|apply sublist_drop].
  - rewrite length_take. lia.
Qed.

Lemma Forall_sublist {A} (P : A → Prop) (l k : list A) :
  l `sublist_of` k → Forall P k → Forall P l.
Proof.
  intros Hsub Hk. apply Forall_forall. intros x Hx.
  eapply (proj1 (Forall_forall _ _) Hk), elem_of_sublist; done.
Qed.

(** The list [get_tasks] returns is cut out of a query that is cut out of
    the table and satisfies the filter of the role and the filters of the
    parameters. *)
Lemma get_tasks_ok project_id status skip limit current_user db l :
  fst (get_tasks project_id status skip limit current_user db) = Ok l →
  ∃ query,
    l `sublist_of` query ∧ (length l ≤ Z.to_nat limit)%nat
    ∧ query `sublist_of` tasks db
    ∧ (User.role current_user = "client" →
       Forall (in_project_of db current_user) query)
    ∧ (User.role current_user = "worker" → Forall open_unassigned query)
    ∧ (∀ p, project_id = Some p → Forall (λ x, Task.project_id x = p) query)
    ∧ (truthy status → Forall (λ x, Task.status x = status) query).
Proof.
  unfold get_tasks. unfold bind at 1, execute at 1.
  set (visible := if decide (User.role current_user = "client") then _ else _).
  set (q1 := match project_id with Some _ => _ | None => _ end).
  set (q2 := if truthy status then _ else _).
  intros [Hsub Hlen]%offset_limit_ok. exists q2.
  assert (q2 `sublist_of` q1) as H21.
  { subst q2. destruct (truthy status); [apply sublist_filter|done]. }
  assert (q1 `sublist_of` visible) as H10.
  { subst q1. destruct project_id; [apply sublist_filter|done]. }
  assert (visible `sublist_of` tasks db) as H0.
  { subst visible. repeat case_decide; try apply sublist_filter; done. }
  split_and!; [done|done|by do 2 (etrans; [eassumption|])| | | |].
  - intros Hrole. apply (Forall_sublist _ _ visible); [by etrans|].
    subst visible. rewrite decide_True by done.
    apply Forall_forall. intros x [Hx _]%list_elem_of_filter.
    apply list_elem_of_fmap in Hx as (p & Hp & [Hown Hin]%list_elem_of_filter).
    by exists p.
  - intros Hrole. apply (Forall_sublist _ _ visible); [by etrans|].
    subst visible. rewrite decide_False by (by rewrite Hrole).
    rewrite decide_True by done.
    apply Forall_forall. by intros x [? _]%list_elem_of_filter.
  - intros p ->. apply (Forall_sublist _ _ q1); [done|]. subst q1.
    apply Forall_forall. by intros x [? _]%list_elem_of_filter.
  - intros Hst. subst q2. destruct (truthy status); [|done].
    apply Forall_forall. by intros x [? _]%list_elem_of_filter.
Qed.

(** X4: the task list of a client holds only tasks of projects the client
    owns, whatever the filters and the page. *)
Theorem get_tasks_client project_id status skip limit current_user db l :
  User.role current_user = "client" →
  fst (get_tasks project_id status skip limit current_user db) = Ok l →
  Forall (in_project_of db current_user) l.
Proof.
  intros Hrole (query & Hsub & _ & _ & Hclient & _)%get_tasks_ok.
  eapply Forall_sublist; [exact Hsub|]. by apply Hclient.
Qed.

Lemma get_tasks_client_witness :
  fst (get_tasks None None 0 100 Sample.alice Sample.db)
  = Ok [Sample.task 20 10 "open" None;
        Sample.task 21 10 "assigned" (Some 3%N);
        Sample.task 22 10 "open" None]
  ∧ Forall (in_project_of Sample.db Sample.alice)
      [Sample.task 20 10 "open" None;
       Sample.task 21 10 "assigned" (Some 3%N);
       Sample.task 22 10 "open" None].
Proof.
  split; [reflexivity|].
  apply (get_tasks_client None None 0 100 Sample.alice Sample.db);
    reflexivity.
Defined.

(** X5: for every role, the task list is made of rows of the table, in
    table order, has at most [limit] rows, and honours the query
    parameters: with a [project_id] every task listed is of that project,
    and with a [status] (not empty) every task listed has that status. *)
Theorem get_tasks_filters project_id status skip limit current_user db l :
  fst (get_tasks project_id status skip limit current_user db) = Ok l →
  l `sublist_of` tasks db
  ∧ (length l ≤ Z.to_nat limit)%nat
  ∧ (∀ p, project_id = Some p → Forall (λ x, Task.project_id x = p) l)
  ∧ (truthy status → Forall (λ x, Task.status x = status) l).
Proof.
  intros (query & Hsub & Hlen & Hq & _ & _ & Hproject & Hstatus)%get_tasks_ok.
  split_and!; [by etrans|done| |].
  - intros p Hp. eapply Forall_sublist; [exact Hsub|]. by apply Hproject.
  - intros Hst. eapply Forall_sublist; [exact Hsub|]. by apply Hstatus.
Qed.

Lemma get_tasks_filters_witness :
  [Sample.task 22 10 "open" None] `sublist_of` tasks Sample.db
  ∧ (length [Sample.task 22 10 "open" None] ≤ Z.to_nat 1)%nat
  ∧ (∀ p, Some 10%N = Some p →
          Forall (λ x, Task.project_id x = p) [Sample.task 22 10 "open" None])
  ∧ (truthy (Some "open") →
     Forall (λ x, Task.status x = Some "open")
       [Sample.task 22 10 "open" None]).
Proof.
  apply (get_tasks_filters (Some 10%N) (Some "open") 1 1 Sample.alice
           Sample.db).
  reflexivity.
Defined.

(** X6: a worker who asks the task list for a status other than "open" gets
    the empty list: the list of a worker never shows an assigned,
    submitted, approved or rejected task, the worker's own included. *)
Theorem get_tasks_worker_other_status project_id s skip limit current_user db l :
  User.role current_user = "worker" → s ≠ "" → s ≠ "open" →
  fst (get_tasks project_id (Some s) skip limit current_user db) = Ok l →
  l = [].
Proof.
  intros Hrole Hs Hopen
    (query & Hsub & _ & _ & _ & Hworker & _ & Hstatus)%get_tasks_ok.
  specialize (Hworker Hrole).
  assert (truthy (Some s)) as Htruthy by (by apply bool_decide_pack).
  specialize (Hstatus Htruthy).
  destruct l as [|x l]; [done|].
  assert (x ∈ query) as Hx by (eapply elem_of_sublist; [left|done]).
  pose proof (proj1 (Forall_forall _ _) Hworker x Hx) as [Hst _].
  pose proof (proj1 (Forall_forall _ _) Hstatus x Hx) as Hst'.
  simpl in Hst'. congruence.
Qed.

Lemma get_tasks_worker_other_status_witness :
  fst (get_tasks None (Some "assigned") 0 100 Sample.carol Sample.db) = Ok []
  ∧ ∀ l,
      fst (get_tasks None (Some "assigned") 0 100 Sample.carol Sample.db)
      = Ok l → l = [].
Proof.
  split; [reflexivity|]. intros l.
  apply (get_tasks_worker_other_status None "assigned" 0 100 Sample.carol
           Sample.db l); [reflexivity|by vm_compute|by vm_compute].
Defined.

(** X7: [get_tasks] filters by role only for "client" and "worker": an
    actor with any other role who asks without filters, from the start and
    with a limit that covers the table and fits the 32 bits of an [INTEGER]
    parameter (a limit that the driver cannot bind is refused,
    [get_tasks_limit_out_of_range]), is given every task in the store. *)
Theorem get_tasks_other_role limit current_user db :
  User.role current_user ≠ "client" → User.role current_user ≠ "worker" →
  (Z.of_nat (length (tasks db)) ≤ limit ≤ 2147483647)%Z →
  get_tasks None None 0 limit current_user db = (Ok (tasks db), db).
Proof.
  intros Hclient Hworker Hlimit.
  unfold get_tasks. unfold bind at 1, execute at 1.
  rewrite !decide_False by done. cbn [truthy].
  unfold offset_limit. rewrite bool_decide_eq_false_2 by lia.
  cbv [ret]. rewrite drop_0, take_ge by lia. done.
Qed.

(** The bound is needed: a limit of 2^63 fits no integer type of the
    store. *)
Lemma get_tasks_limit_out_of_range :
  get_tasks None None 0 9223372036854775808
    (Sample.user 5 "eve@example.org" "admin") Sample.db
  = (Raise DataError, Sample.db).
Proof. reflexivity. Qed.

Lemma get_tasks_other_role_witness :
  get_tasks None None 0 100 (Sample.user 5 "eve@example.org" "admin") Sample.db
  = (Ok (tasks Sample.db), Sample.db).
Proof.
  apply (get_tasks_other_role 100 (Sample.user 5 "eve@example.org" "admin")
           Sample.db).
  - by vm_compute.
  - by vm_compute.
  - by vm_compute.
Defined.

(** ** Assigned tasks *)

(** X8: a claimed task moves from the open list to the claimant's own:
    after a worker's successful claim, [get_my_tasks] of that worker holds
    the task, and the task list of no worker holds a task with its id. *)
Theorem claim_task_then_lists now db w x :
  wf db → w ∈ users db → User.role w = "worker" →
  x ∈ tasks db → Task.status x = Some "open" → Task.assignee_id x = None →
  ∃ x1 db1,
    claim_task now (Task.id x) w db = (Ok x1, db1)
    ∧ (∃ mine, get_my_tasks w db1 = (Ok mine, db1) ∧ x1 ∈ mine)
    ∧ (∀ w' project_id status skip limit l,
         User.role w' = "worker" →
         fst (get_tasks project_id status skip limit w' db1) = Ok l →
         Forall (λ y, Task.id y ≠ Task.id x) l).
Proof.
  intros Hwf Hw Hrole Hx Hst Has.
  pose proof (claim_task_run now db w x Hwf Hw Hrole Hx Hst Has) as Hrun.
  eexists _, _. split; [exact Hrun|].
  set (db1 := set_tasks _ db).
  assert (claimed now w x ∈ tasks db1) as Hin.
  { subst db1. cbn [tasks set_tasks]. by apply claimed_in_store. }
  assert (wf db1) as Hwf1.
  { destruct handlers_preserve_wf as (_ & _ & _ & _ & Hcl & _).
    specialize (Hcl now (Task.id x) w db Hwf). by rewrite Hrun in Hcl. }
  split.
  - eexists. unfold get_my_tasks. rewrite decide_False by (by intros []).
    split; [reflexivity|]. apply list_elem_of_filter. split; [|done].
    by destruct x.
  - intros w' project_id status skip limit l Hrole'
      (query & Hsub & _ & Hq & _ & Hworker & _)%get_tasks_ok.
    specialize (Hworker Hrole').
    apply Forall_forall. intros y Hy Hid.
    assert (y ∈ query) as Hyq by by eapply elem_of_sublist.
    pose proof (proj1 (Forall_forall _ _) Hworker y Hyq) as [Hopen _].
    assert (y ∈ tasks db1) as Hy1 by by eapply elem_of_sublist.
    assert (y = claimed now w x) as ->.
    { eapply (pk_inj Task.id); [by apply wf_tasks_pk|done..|].
      rewrite Hid. by destruct x. }
    by destruct x.
Qed.

Lemma claim_task_then_lists_witness :
  ∃ x1 db1,
    claim_task 999 20 Sample.carol Sample.db = (Ok x1, db1)
    ∧ (∃ mine, get_my_tasks Sample.carol db1 = (Ok mine, db1) ∧ x1 ∈ mine)
    ∧ (∀ w' project_id status skip limit l,
         User.role w' = "worker" →
         fst (get_tasks project_id status skip limit w' db1) = Ok l →
         Forall (λ y, Task.id y ≠ 20%N) l).
Proof.
  apply (claim_task_then_lists 999 Sample.db Sample.carol
           (Sample.task 20 10 "open" None)).
  - by_eval.
  - unfold Sample.db, users. in_table.
  - reflexivity.
  - unfold Sample.db, tasks. in_table.
  - reflexivity.
  - reflexivity.
Defined.

(** X9: [get_my_tasks] is for workers only: any other actor gets 403 "Only
    workers can view assigned tasks"; a worker gets, unpaged, tasks that are
    all assigned to that worker, none of which the worker's own task list
    ever shows. *)
Theorem get_my_tasks_cases db current_user :
  (User.role current_user ≠ "worker" →
   get_my_tasks current_user db
   = (Raise (HTTPException 403 "Only workers can view assigned tasks"), db))
  ∧ (User.role current_user = "worker" →
     ∃ mine,
       get_my_tasks current_user db = (Ok mine, db)
       ∧ Forall (λ x, Task.assignee_id x = Some (User.id current_user)) mine
       ∧ ∀ project_id status skip limit l,
           fst (get_tasks project_id status skip limit current_user db) = Ok l →
           Forall (λ x, x ∉ mine) l).
Proof.
  split; intros Hrole; unfold get_my_tasks.
  - by rewrite decide_True.
  - rewrite decide_False by (by intros []). eexists. split; [reflexivity|].
    split.
    + apply Forall_forall. by intros x [? _]%list_elem_of_filter.
    + intros project_id status skip limit l
        (query & Hsub & _ & _ & _ & Hworker & _)%get_tasks_ok.
      specialize (Hworker Hrole).
      apply Forall_forall. intros x Hx [Hmine _]%list_elem_of_filter.
      assert (x ∈ query) as Hxq by by eapply elem_of_sublist.
      pose proof (proj1 (Forall_forall _ _) Hworker x Hxq) as [_ Hnone].
      congruence.
Qed.

Lemma get_my_tasks_cases_witness :
  get_my_tasks Sample.alice Sample.db
  = (Raise (HTTPException 403 "Only workers can view assigned tasks"),
     Sample.db)
  ∧ get_my_tasks Sample.carol Sample.db
    = (Ok [Sample.task 21 10 "assigned" (Some 3%N)], Sample.db).
Proof.
  split; [|reflexivity].
  apply (proj1 (get_my_tasks_cases Sample.db Sample.alice)). by vm_compute.
Defined.

(** ** Reading, updating and deleting one task *)

(** The foreign key gives every task its project. *)
Lemma task_project_exists db x :
  wf db → x ∈ tasks db →
  ∃ p, p ∈ projects db ∧ Project.id p = Task.project_id x
       ∧ Task_project x db = Some p.
Proof.
  intros Hwf Hx.
  pose proof (task_ok_inv _ _ (wf_task_ok _ _ Hwf Hx)) as (_ & Hfk & _).
  apply list_elem_of_fmap in Hfk as (p & Hid & Hp).
  exists p. split_and!; [done..|]. by apply Task_project_owner.
Qed.

Lemma in_project_of_owner db u x p :
  wf db → p ∈ projects db → Project.id p = Task.project_id x →
  in_project_of db u x → Project.client_id p = User.id u.
Proof.
  intros Hwf Hp Hid (q & Hq & Hqid & Hown).
  assert (p = q) as ->; [|done].
  eapply (pk_inj Project.id); [by apply wf_projects_pk|done..|congruence].
Qed.

(** X10: who may read a task by its id.  An id no task has gives 404 to
    everyone.  A worker reads a task that is assigned to them or has status
    "open", and gets 403 for any other.  A client reads the tasks of their
    own projects and gets 403 for the others. *)
Theorem get_task_cases db current_user :
  wf db →
  (∀ task_id, task_id ∉ Task.id <$> tasks db →
     get_task task_id current_user db
     = (Raise (HTTPException 404 "Task not found"), db))
  ∧ (∀ x, x ∈ tasks db → User.role current_user = "worker" →
       (Task.assignee_id x = Some (User.id current_user)
        ∨ Task.status x = Some "open" →
        get_task (Task.id x) current_user db = (Ok x, db))
       ∧ (Task.assignee_id x ≠ Some (User.id current_user) →
          Task.status x ≠ Some "open" →
          get_task (Task.id x) current_user db
          = (Raise (HTTPException 403 "Not authorized to view this task"),
             db)))
  ∧ (∀ x, x ∈ tasks db → User.role current_user = "client" →
       (in_project_of db current_user x →
        get_task (Task.id x) current_user db = (Ok x, db))
       ∧ (¬ in_project_of db current_user x →
          get_task (Task.id x) current_user db
          = (Raise (HTTPException 403 "Not authorized to view this task"),
             db))).
Proof.
  intros Hwf. split_and!.
  - intros task_id Hout. unfold get_task. unfold bind at 1, execute at 1.
    by rewrite select_absent.
  - intros x Hx Hrole.
    assert (get_task (Task.id x) current_user db
            = if bool_decide (Task.assignee_id x ≠ Some (User.id current_user)
                              ∧ Task.status x ≠ Some "open")
              then (Raise (HTTPException 403
                             "Not authorized to view this task"), db)
              else (Ok x, db)) as ->.
    { unfold get_task. unfold bind at 1, execute at 1.
      rewrite select_by_key by auto using wf_tasks_pk.
      unfold bind at 1, scalar_one_or_none, ret.
      unfold bind at 1, execute at 1.
      rewrite decide_False by (by rewrite Hrole).
      cbv [bind ret orb].
      case_bool_decide as H1; case_bool_decide as H2; try done.
      - destruct H2. tauto.
      - destruct H1. tauto. }
    split.
    + intros Hor. rewrite bool_decide_eq_false_2; [done|].
      intros [? ?]. by destruct Hor.
    + intros ? ?. by rewrite bool_decide_eq_true_2.
  - intros x Hx Hrole.
    destruct (task_project_exists db x Hwf Hx) as (p & Hp & Hid & Hload).
    assert (get_task (Task.id x) current_user db
            = if bool_decide (Project.client_id p ≠ User.id current_user)
              then (Raise (HTTPException 403
                             "Not authorized to view this task"), db)
              else (Ok x, db)) as ->.
    { unfold get_task. unfold bind at 1, execute at 1.
      rewrite select_by_key by auto using wf_tasks_pk.
      unfold bind at 1, scalar_one_or_none, ret.
      unfold bind at 1, execute at 1. rewrite Hload.
      rewrite decide_True by done.
      cbv [bind client_id_of ret].
      case_bool_decide; [done|].
      rewrite bool_decide_eq_false_2 by (rewrite Hrole; by intros [? _]).
      done. }
    split.
    + intros Hown. rewrite bool_decide_eq_false_2; [done|].
      intros Hne. apply Hne. by eapply in_project_of_owner.
    + intros Hnot. rewrite bool_decide_eq_true_2; [done|].
      intros Hown. apply Hnot. by exists p.
Qed.

Lemma get_task_cases_witness :
  get_task 77 Sample.carol Sample.db
  = (Raise (HTTPException 404 "Task not found"), Sample.db)
  ∧ get_task 21 Sample.carol Sample.db
    = (Ok (Sample.task 21 10 "assigned" (Some 3%N)), Sample.db)
  ∧ get_task 21 Sample.dave Sample.db
    = (Raise (HTTPException 403 "Not authorized to view this task"),
       Sample.db).
Proof.
  assert (wf Sample.db) as Hwf by by_eval.
  split_and!.
  - destruct (get_task_cases Sample.db Sample.carol Hwf) as (H404 & _).
    apply H404. by_eval.
  - destruct (get_task_cases Sample.db Sample.carol Hwf) as (_ & Hworker & _).
    apply (Hworker (Sample.task 21 10 "assigned" (Some 3%N))).
    + unfold Sample.db, tasks. in_table.
    + reflexivity.
    + by left.
  - destruct (get_task_cases Sample.db Sample.dave Hwf) as (_ & Hworker & _).
    apply (Hworker (Sample.task 21 10 "assigned" (Some 3%N))).
    + unfold Sample.db, tasks. in_table.
    + reflexivity.
    + by vm_compute.
    + by vm_compute.
Defined.

(** What [update_task] does for an actor who passes its permission check. *)
Lemma update_task_permitted_run now db current_user x u :
  wf db → x ∈ tasks db → may_update db current_user x →
  update_task now (Task.id x) u current_user db
  = match filter (λ it, Task_changes x it)
            (TaskUpdate.dict_exclude_unset u) with
    | [] => (Ok x, db)
    | _ :: _ =>
        if task_ok db (stored_task u x)
        then (Ok (Task.set_updated_at now (stored_task u x)),
              set_tasks
                (update_row Task.id
                   (Task.set_updated_at now (stored_task u x))
                   (tasks db)) db)
        else (Raise (if Task.in_range (stored_task u x)
                     then IntegrityError else DataError), db)
    end.
Proof.
  intros Hwf Hx [Hclient Hworker].
  rewrite <- (update_task_flush now db u x) by done.
  destruct (task_project_exists db x Hwf Hx) as (p & Hp & Hid & Hload).
  unfold update_task. unfold bind at 1, execute at 1.
  rewrite select_by_key by auto using wf_tasks_pk.
  unfold bind at 1, scalar_one_or_none, ret.
  unfold bind at 1, execute at 1. rewrite Hload.
  destruct (decide (User.role current_user = "client")) as [Hrole|Hrole].
  - unfold bind at 1. unfold bind at 1. cbv [client_id_of ret].
    rewrite bool_decide_eq_false_2
      by (intros Hne; apply Hne; eapply in_project_of_owner; eauto).
    by rewrite bool_decide_eq_false_2 by (intros [? ?]; auto).
  - unfold bind at 1. cbv [ret].
    by rewrite bool_decide_eq_false_2 by (intros [? ?]; auto).
Qed.



(** X12: [update_task] answers 404 "Task not found" for an id no task has,
    and 403 "Not authorized to update this task" to a client who does not
    own the project and to a worker who is not the assignee, even when the
    task is open and unassigned; in each case the store is left as it
    was. *)
Theorem update_task_denied now db current_user u :
  wf db →
  (∀ task_id, task_id ∉ Task.id <$> tasks db →
     update_task now task_id u current_user db
     = (Raise (HTTPException 404 "Task not found"), db))
  ∧ (∀ x, x ∈ tasks db → User.role current_user = "client" →
       ¬ in_project_of db current_user x →
       update_task now (Task.id x) u current_user db
       = (Raise (HTTPException 403 "Not authorized to update this task"), db))
  ∧ (∀ x, x ∈ tasks db → User.role current_user = "worker" →
       Task.assignee_id x ≠ Some (User.id current_user) →
       update_task now (Task.id x) u current_user db
       = (Raise (HTTPException 403 "Not authorized to update this task"), db)).
Proof.
  intros Hwf. split_and!.
  - intros task_id Hout. unfold update_task. unfold bind at 1, execute at 1.
    by rewrite select_absent.
  - intros x Hx Hrole Hnot.
    destruct (task_project_exists db x Hwf Hx) as (p & Hp & Hid & Hload).
    unfold update_task. unfold bind at 1, execute at 1.
    rewrite select_by_key by auto using wf_tasks_pk.
    unfold bind at 1, scalar_one_or_none, ret.
    unfold bind at 1, execute at 1. rewrite Hload.
    rewrite decide_True by done. cbv [bind client_id_of ret].
    rewrite bool_decide_eq_true_2; [done|].
    intros Hown. apply Hnot. by exists p.
  - intros x Hx Hrole Hne.
    unfold update_task. unfold bind at 1, execute at 1.
    rewrite select_by_key by auto using wf_tasks_pk.
    unfold bind at 1, scalar_one_or_none, ret.
    unfold bind at 1, execute at 1.
    rewrite decide_False by (by rewrite Hrole). cbv [bind ret].
    by rewrite bool_decide_eq_true_2.
Qed.

Lemma update_task_denied_witness :
  update_task 999 20
    (TaskUpdate.mk Unset Unset Unset Unset Unset (Given (Some "approved"))
       Unset Unset Unset Unset Unset Unset)
    Sample.carol Sample.db
  = (Raise (HTTPException 403 "Not authorized to update this task"),
     Sample.db).
Proof.
  assert (wf Sample.db) as Hwf by by_eval.
  destruct (update_task_denied 999 Sample.db Sample.carol
              (TaskUpdate.mk Unset Unset Unset Unset Unset
                 (Given (Some "approved")) Unset Unset Unset Unset Unset Unset)
              Hwf) as (_ & _ & Hworker).
  apply (Hworker (Sample.task 20 10 "open" None)).
  - unfold Sample.db, tasks. in_table.
  - reflexivity.
  - by vm_compute.
Defined.






(** X14: a request body that sets no field is accepted and is no update:
    the owner's [update_project] and a permitted [update_task] return the
    row as it is and leave the store, [updated_at] included, as it was. *)
Theorem update_with_no_field now db current_user :
  wf db →
  (∀ p, p ∈ projects db → Project.client_id p = User.id current_user →
     update_project now (Project.id p)
       (ProjectUpdate.mk Unset Unset Unset Unset Unset) current_user db
     = (Ok p, db))
  ∧ (∀ x, x ∈ tasks db → may_update db current_user x →
       update_task now (Task.id x)
         (TaskUpdate.mk Unset Unset Unset Unset Unset Unset Unset Unset Unset
            Unset Unset Unset) current_user db
       = (Ok x, db)).
Proof.
  intros Hwf. split.
  - intros p Hp Hown. by rewrite update_project_run.
  - intros x Hx Hmay. by rewrite update_task_permitted_run.
Qed.

Lemma update_with_no_field_witness :
  update_project 999 10 (ProjectUpdate.mk Unset Unset Unset Unset Unset)
    Sample.alice Sample.db
  = (Ok (Sample.project 10 1 "A" 10%float), Sample.db).
Proof.
  assert (wf Sample.db) as Hwf by by_eval.
  destruct (update_with_no_field 999 Sample.db Sample.alice Hwf)
    as [Hproject _].
  apply (Hproject (Sample.project 10 1 "A" 10%float)).
  - unfold Sample.db, projects. in_table.
  - reflexivity.
Defined.

(** X15: the client who owns the project deletes a task and no other: the
    handler confirms, the store has the same tasks but that one, and from
    then on its id gives 404 "Task not found" to every reader. *)
Theorem delete_task_by_owner now db current_user x :
  wf db → x ∈ tasks db → in_project_of db current_user x →
  delete_task now (Task.id x) current_user db
  = (Ok {[ "message" := JString "Task deleted successfully" ]},
     without_task x db)
  ∧ (∀ y, y ∈ tasks (without_task x db) ↔ y ∈ tasks db ∧ y ≠ x)
  ∧ projects (without_task x db) = projects db
  ∧ (∀ reader,
       get_task (Task.id x) reader (without_task x db)
       = (Raise (HTTPException 404 "Task not found"), without_task x db)).
Proof.
  intros Hwf Hx Hown.
  destruct (task_project_exists db x Hwf Hx) as (p & Hp & Hid & Hload).
  split_and!.
  - unfold delete_task. unfold bind at 1, execute at 1.
    rewrite select_by_key by auto using wf_tasks_pk.
    unfold bind at 1, scalar_one_or_none, ret.
    unfold bind at 1, execute at 1. rewrite Hload.
    cbv [bind client_id_of ret].
    rewrite decide_False; [done|]. intros Hne. apply Hne.
    by eapply in_project_of_owner.
  - intros y. unfold without_task. cbn [tasks set_tasks].
    rewrite delete_by_key. split; intros [Hy Hne]; split; try done.
    + by intros ->.
    + intros Hk. apply Hne. symmetry.
      eapply (pk_inj Task.id); [by apply wf_tasks_pk|done..].
  - done.
  - intros reader. unfold get_task. unfold bind at 1, execute at 1.
    rewrite select_absent; [done|].
    unfold without_task. cbn [tasks set_tasks]. apply deleted_absent.
Qed.

Lemma delete_task_by_owner_witness :
  delete_task 999 21 Sample.alice Sample.db
  = (Ok {[ "message" := JString "Task deleted successfully" ]},
     without_task (Sample.task 21 10 "assigned" (Some 3%N)) Sample.db)
  ∧ Task.id <$> tasks (without_task (Sample.task 21 10 "assigned" (Some 3%N))
                         Sample.db) = [20%N; 22%N; 23%N].
Proof.
  split; [|reflexivity].
  apply (delete_task_by_owner 999 Sample.db Sample.alice
           (Sample.task 21 10 "assigned" (Some 3%N))).
  - by_eval.
  - unfold Sample.db, tasks. in_table.
  - exists (Sample.project 10 1 "A" 10%float). split_and!; [|done..].
    unfold Sample.db, projects. in_table.
Defined.

(** X16: only the owner of the project deletes a task.  [delete_task]
    answers 404 "Task not found" for an id no task has and 403 "Not
    authorized to delete this task" to every actor who does not own the
    project, whatever the role and also to the worker the task is assigned
    to; in both cases nothing is deleted. *)
Theorem delete_task_denied now db current_user :
  wf db →
  (∀ task_id, task_id ∉ Task.id <$> tasks db →
     delete_task now task_id current_user db
     = (Raise (HTTPException 404 "Task not found"), db))
  ∧ (∀ x, x ∈ tasks db → ¬ in_project_of db current_user x →
       delete_task now (Task.id x) current_user db
       = (Raise (HTTPException 403 "Not authorized to delete this task"), db)).
Proof.
  intros Hwf. split.
  - intros task_id Hout. unfold delete_task. unfold bind at 1, execute at 1.
    by rewrite select_absent.
  - intros x Hx Hnot.
    destruct (task_project_exists db x Hwf Hx) as (p & Hp & Hid & Hload).
    unfold delete_task. unfold bind at 1, execute at 1.
    rewrite select_by_key by auto using wf_tasks_pk.
    unfold bind at 1, scalar_one_or_none, ret.
    unfold bind at 1, execute at 1. rewrite Hload.
    cbv [bind client_id_of ret].
    rewrite decide_True; [done|]. intros Hown. apply Hnot. by exists p.
Qed.

(** Carol is the assignee of task 21 and cannot delete it. *)
Lemma delete_task_denied_witness :
  delete_task 999 21 Sample.carol Sample.db
  = (Raise (HTTPException 403 "Not authorized to delete this task"),
     Sample.db).
Proof.
  assert (wf Sample.db) as Hwf by by_eval.
  destruct (delete_task_denied 999 Sample.db Sample.carol Hwf) as [_ Hdenied].
  apply (Hdenied (Sample.task 21 10 "assigned" (Some 3%N))).
  - unfold Sample.db, tasks. in_table.
  - intros (p & Hp & Hid & Hown).
    unfold Sample.db, projects in Hp.
    repeat (apply elem_of_cons in Hp as [->|Hp]; [by vm_compute in Hown|]).
    by apply elem_of_nil in Hp.
Defined.

(** ** Creating a task *)

(** X17: [create_task] inserts nothing for a project that does not exist
    (404 "Project not found") or that the actor does not own (403 "Not
    authorized to create tasks for this project"), whatever the actor's
    role. *)
Theorem create_task_rejected now new_id task_data current_user db :
  (TaskCreate.project_id task_data ∉ Project.id <$> projects db →
   create_task now new_id task_data current_user db
   = (Raise (HTTPException 404 "Project not found"), db))
  ∧ (∀ p, wf db → p ∈ projects db →
       TaskCreate.project_id task_data = Project.id p →
       Project.client_id p ≠ User.id current_user →
       create_task now new_id task_data current_user db
       = (Raise (HTTPException 403
                   "Not authorized to create tasks for this project"), db)).
Proof.
  split.
  - intros Hout. unfold create_task. unfold bind at 1, execute at 1.
    by rewrite select_absent.
  - intros p Hwf Hp Hid Hne.
    unfold create_task. unfold bind at 1, execute at 1.
    rewrite Hid, select_by_key by auto using wf_projects_pk.
    cbv [bind scalar_one_or_none ret]. by rewrite decide_True.
Qed.

Lemma create_task_rejected_witness :
  create_task 999 24
    (TaskCreate.mk "t" "d" Unset 5%float Unset Unset Unset Unset Unset Unset
       Unset 10) Sample.bob Sample.db
  = (Raise (HTTPException 403
              "Not authorized to create tasks for this project"), Sample.db).
Proof.
  apply (proj2 (create_task_rejected 999 24
                  (TaskCreate.mk "t" "d" Unset 5%float Unset Unset Unset Unset
                     Unset Unset Unset 10) Sample.bob Sample.db)
           (Sample.project 10 1 "A" 10%float)).
  - by_eval.
  - unfold Sample.db, projects. in_table.
  - reflexivity.
  - by vm_compute.
Defined.



(** ** Projects *)




(** X20: the project list is scoped by role: a client is listed only
    projects that client owns, whatever their status; every other actor is
    listed only projects with status "open".  The page is made of rows of
    the table, in table order, and has at most [limit] rows. *)
Theorem get_projects_scope skip limit current_user db l :
  fst (get_projects skip limit current_user db) = Ok l →
  l `sublist_of` projects db
  ∧ (length l ≤ Z.to_nat limit)%nat
  ∧ (User.role current_user = "client" →
     Forall (λ p, Project.client_id p = User.id current_user) l)
  ∧ (User.role current_user ≠ "client" →
     Forall (λ p, Project.status p = Some "open") l).
Proof.
  unfold get_projects.
  destruct (decide (User.role current_user = "client")) as [Hrole|Hrole];
    unfold bind at 1, execute at 1;
    intros [Hsub Hlen]%offset_limit_ok;
    (split_and!;
     [ etrans; [exact Hsub|apply sublist_filter] | done | intros ? | intros ? ]);
    try done;
    (eapply Forall_sublist; [exact Hsub|]);
    apply Forall_forall; by intros p [? _]%list_elem_of_filter.
Qed.

Lemma get_projects_scope_witness :
  fst (get_projects 0 100 Sample.bob Sample.db)
  = Ok [Sample.project 11 2 "B" 7%float]
  ∧ Forall (λ p, Project.client_id p = 2%N) [Sample.project 11 2 "B" 7%float].
Proof.
  split; [reflexivity|].
  by apply (get_projects_scope 0 100 Sample.bob Sample.db
              [Sample.project 11 2 "B" 7%float] eq_refl).
Defined.

(** X21: only the owner writes to a project.  [update_project] and
    [delete_project] answer 404 "Project not found" for an id no project
    has, and 403 to every actor whose id is not the project's [client_id],
    whatever the role; in each case the store is left as it was. *)
Theorem project_write_denied now db current_user u :
  (∀ project_id, project_id ∉ Project.id <$> projects db →
     update_project now project_id u current_user db
     = (Raise (HTTPException 404 "Project not found"), db)
     ∧ delete_project now project_id current_user db
       = (Raise (HTTPException 404 "Project not found"), db))
  ∧ (∀ p, wf db → p ∈ projects db →
       Project.client_id p ≠ User.id current_user →
       update_project now (Project.id p) u current_user db
       = (Raise (HTTPException 403 "Not authorized to update this project"),
          db)
       ∧ delete_project now (Project.id p) current_user db
         = (Raise (HTTPException 403 "Not authorized to delete this project"),
            db)).
Proof.
  split.
  - intros project_id Hout. split.
    + unfold update_project. unfold bind at 1, execute at 1.
      by rewrite select_absent.
    + unfold delete_project. unfold bind at 1, execute at 1.
      by rewrite select_absent.
  - intros p Hwf Hp Hne. split.
    + unfold update_project. unfold bind at 1, execute at 1.
      rewrite select_by_key by auto using wf_projects_pk.
      cbv [bind scalar_one_or_none ret]. by rewrite decide_True.
    + unfold delete_project. unfold bind at 1, execute at 1.
      rewrite select_by_key by auto using wf_projects_pk.
      cbv [bind scalar_one_or_none ret]. by rewrite decide_True.
Qed.

Lemma project_write_denied_witness :
  update_project 999 10
    (ProjectUpdate.mk Unset Unset Unset (Given (Some 1%float)) Unset)
    Sample.bob Sample.db
  = (Raise (HTTPException 403 "Not authorized to update this project"),
     Sample.db)
  ∧ delete_project 999 10 Sample.bob Sample.db
    = (Raise (HTTPException 403 "Not authorized to delete this project"),
       Sample.db).
Proof.
  apply (proj2 (project_write_denied 999 Sample.db Sample.bob
                  (ProjectUpdate.mk Unset Unset Unset (Given (Some 1%float))
                     Unset))
           (Sample.project 10 1 "A" 10%float)).
  - by_eval.
  - unfold Sample.db, projects. in_table.
  - by vm_compute.
Defined.

Lemma delete_project_run now db current_user p :
  wf db → p ∈ projects db → Project.client_id p = User.id current_user →
  delete_project now (Project.id p) current_user db
  = (Ok {[ "message" := JString "Project deleted successfully" ]},
     without_project p db).
Proof.
  intros Hwf Hp Hown.
  unfold delete_project. unfold bind at 1, execute at 1.
  rewrite select_by_key by auto using wf_projects_pk.
  cbv [bind scalar_one_or_none ret].
  rewrite decide_False by (by intros []). reflexivity.
Qed.

(** X22: a deleted project is gone for every reader, and its tasks with
    it: after the owner's [delete_project], reading the project by its id
    gives 404 "Project not found", and reading, updating, claiming or
    deleting any task that belonged to it gives 404 "Task not found" (403
    to a claimant who is not a worker), whoever the actor is. *)
Theorem delete_project_then_not_found now db owner p :
  wf db → p ∈ projects db → Project.client_id p = User.id owner →
  ∃ db1,
    snd (delete_project now (Project.id p) owner db) = db1
    ∧ (∀ actor,
         get_project (Project.id p) actor db1
         = (Raise (HTTPException 404 "Project not found"), db1))
    ∧ (∀ x actor now' u,
         x ∈ tasks db → Task.project_id x = Project.id p →
         get_task (Task.id x) actor db1
         = (Raise (HTTPException 404 "Task not found"), db1)
         ∧ update_task now' (Task.id x) u actor db1
           = (Raise (HTTPException 404 "Task not found"), db1)
         ∧ delete_task now' (Task.id x) actor db1
           = (Raise (HTTPException 404 "Task not found"), db1)
         ∧ (User.role actor = "worker" →
            claim_task now' (Task.id x) actor db1
            = (Raise (HTTPException 404 "Task not found"), db1))).
Proof.
  intros Hwf Hp Hown. exists (without_project p db).
  split; [by rewrite delete_project_run|]. split.
  - intros actor. unfold get_project. unfold bind at 1, execute at 1.
    rewrite select_absent; [done|].
    unfold without_project. cbn [projects set_projects]. apply deleted_absent.
  - intros x actor now' u Hx Hproject.
    assert (Task.id x ∉ Task.id <$> tasks (without_project p db)) as Hgone.
    { unfold without_project. cbn [tasks set_projects set_tasks].
      intros (y & Hid & [Hne Hy]%list_elem_of_filter)%list_elem_of_fmap.
      assert (x = y) as <-; [|done].
      eapply (pk_inj Task.id); [by apply wf_tasks_pk|done..]. }
    split_and!.
    + unfold get_task. unfold bind at 1, execute at 1.
      by rewrite select_absent.
    + unfold update_task. unfold bind at 1, execute at 1.
      by rewrite select_absent.
    + unfold delete_task. unfold bind at 1, execute at 1.
      by rewrite select_absent.
    + intros Hrole. unfold claim_task.
      rewrite decide_False by (by intros []).
      unfold bind at 1, execute at 1. by rewrite select_absent.
Qed.

Lemma delete_project_then_not_found_witness :
  get_project 10 Sample.carol
    (snd (delete_project 999 10 Sample.alice Sample.db))
  = (Raise (HTTPException 404 "Project not found"),
     snd (delete_project 999 10 Sample.alice Sample.db))
  ∧ get_task 21 Sample.carol
      (snd (delete_project 999 10 Sample.alice Sample.db))
    = (Raise (HTTPException 404 "Task not found"),
       snd (delete_project 999 10 Sample.alice Sample.db)).
Proof.
  destruct (delete_project_then_not_found 999 Sample.db Sample.alice
              (Sample.project 10 1 "A" 10%float))
    as (db1 & Hdb1 & Hproject & Htasks).
  - by_eval.
  - unfold Sample.db, projects. in_table.
  - reflexivity.
  - change (Project.id (Sample.project 10 1 "A" 10%float)) with 10%N in *.
    rewrite Hdb1. split; [apply Hproject|].
    apply (Htasks (Sample.task 21 10 "assigned" (Some 3%N)) Sample.carol 0
             (TaskUpdate.mk Unset Unset Unset Unset Unset Unset Unset Unset
                Unset Unset Unset Unset)).
    + unfold Sample.db, tasks. in_table.
    + reflexivity.
Defined.

(** ** The mailbox *)

Lemma filter_none {A} (P : A → Prop) `{!∀ x, Decision (P x)} (l : list A) :
  (∀ x, x ∈ l → ¬ P x) → filter P l = [].
Proof.
  intros Hnone. apply elem_of_nil_inv.
  intros x [HP Hx]%list_elem_of_filter. by eapply Hnone.
Qed.

Lemma StronglySorted_sublist {A} (R : relation A) (l k : list A) :
  l `sublist_of` k → StronglySorted R k → StronglySorted R l.
Proof.
  induction 1 as [|x l k Hsub IH|x l k Hsub IH]; intros Hk.
  - constructor.
  - apply StronglySorted_inv in Hk as [Hk Hx]. constructor; [by apply IH|].
    by eapply Forall_sublist.
  - apply StronglySorted_inv in Hk as [Hk _]. by apply IH.
Qed.

(** The select of [mark_notification_read] and [delete_notification] finds
    a notification of the user by its id. *)
Lemma select_owned db (n : Notification.t) (u : User.t) :
  wf db → n ∈ notifications db → Notification.user_id n = User.id u →
  filter (λ r, Notification.id r = Notification.id n
               ∧ Notification.user_id r = User.id u) (notifications db)
  = [n].
Proof.
  intros Hwf Hn Hu. rewrite <- list_filter_filter.
  apply select_by_key.
  - by apply keys_filter_sub, wf_notifications_pk.
  - by apply list_elem_of_filter.
Qed.

(** X23: the page of the mailbox.  [get_notifications] returns only
    notifications of the acting user, only unread ones when [unread_only]
    is set, the later before the earlier, and at most [limit] of them; from
    the start and with a limit that covers the table, the page is a
    reordering of all the notifications of the user that pass the filter. *)
Theorem get_notifications_page skip limit unread_only current_user db l :
  fst (get_notifications skip limit unread_only current_user db) = Ok l →
  Forall (λ n, n ∈ notifications db
               ∧ Notification.user_id n = User.id current_user) l
  ∧ (unread_only → Forall (λ n, Notification.read n = Some false) l)
  ∧ StronglySorted newest_first l
  ∧ (length l ≤ Z.to_nat limit)%nat
  ∧ (skip = 0%Z → (length (notifications db) ≤ Z.to_nat limit)%nat →
     l ≡ₚ filter (λ n, Notification.user_id n = User.id current_user
                       ∧ (unread_only → Notification.read n = Some false))
            (notifications db)).
Proof.
  unfold get_notifications. unfold bind at 1, execute at 1.
  set (owned := filter _ (notifications db)).
  set (query := if unread_only then _ else _).
  intros Hl. pose proof Hl as [Hsub Hlen]%offset_limit_ok.
  assert (∀ n, n ∈ l → n ∈ query) as Hlq.
  { intros n Hn. rewrite <- (merge_sort_Permutation newest_first query).
    by eapply elem_of_sublist. }
  assert (query `sublist_of` owned) as Hqo.
  { subst query. destruct unread_only; [apply sublist_filter|done]. }
  split_and!.
  - apply Forall_forall. intros n Hn%Hlq.
    assert (n ∈ owned) as Ho by by eapply elem_of_sublist.
    subst owned. apply list_elem_of_filter in Ho. tauto.
  - intros Hunread. apply Forall_forall. intros n Hn%Hlq.
    subst query. destruct unread_only; [|done].
    by apply list_elem_of_filter in Hn as [? _].
  - eapply StronglySorted_sublist; [exact Hsub|].
    apply StronglySorted_merge_sort; apply _.
  - done.
  - intros -> Hcover. revert Hl. unfold offset_limit.
    case_bool_decide; [done|]. cbv [ret fst]. intros [= <-].
    assert (length (merge_sort newest_first query) ≤ Z.to_nat limit)%nat.
    { rewrite (merge_sort_Permutation newest_first query).
      etrans; [|exact Hcover].
      etrans; [apply sublist_length, Hqo|]. subst owned. apply length_filter. }
    rewrite drop_0, take_ge by done.
    rewrite (merge_sort_Permutation newest_first query).
    subst query owned. destruct unread_only.
    + rewrite list_filter_filter.
      match goal with |- ?a ≡ₚ ?b => assert (a = b) as ->; [|done] end.
      apply list_filter_iff. intros n. cbn. tauto.
    + match goal with |- ?a ≡ₚ ?b => assert (a = b) as ->; [|done] end.
      apply list_filter_iff. intros n. cbn. tauto.
Qed.

Lemma get_notifications_page_witness :
  fst (get_notifications 0 5 true Sample.carol inbox)
    = Ok [Notification.mk 42 3 "n" "m" None (Some false) 20 20;
          Notification.mk 40 3 "n" "m" None (Some false) 10 10]
  ∧ StronglySorted newest_first
      [Notification.mk 42 3 "n" "m" None (Some false) 20 20;
       Notification.mk 40 3 "n" "m" None (Some false) 10 10]
  ∧ Forall (λ n, Notification.read n = Some false)
      [Notification.mk 42 3 "n" "m" None (Some false) 20 20;
       Notification.mk 40 3 "n" "m" None (Some false) 10 10].
Proof.
  split; [reflexivity|].
  destruct (get_notifications_page 0 5 true Sample.carol inbox
              [Notification.mk 42 3 "n" "m" None (Some false) 20 20;
               Notification.mk 40 3 "n" "m" None (Some false) 10 10]
              eq_refl) as (_ & Hunread & Hsorted & _).
  split; [exact Hsorted|by apply Hunread].
Defined.

(** X24: the owner marks one notification as read.  The handler returns the
    stored notification, which has [read] set and, but for [updated_at], the
    other columns of the old one; the other notifications are the rows they
    were; and for a notification that is read already nothing changes at
    all. *)
Theorem mark_notification_read_owned now db current_user n :
  wf db → n ∈ notifications db →
  Notification.user_id n = User.id current_user →
  ∃ n' db',
    mark_notification_read now (Notification.id n) current_user db
    = (Ok n', db')
    ∧ n' ∈ notifications db'
    ∧ Notification.set_updated_at (Notification.updated_at n) n'
      = Notification.set_read (Some true) n
    ∧ (∀ r, r ∈ notifications db → Notification.id r ≠ Notification.id n →
            r ∈ notifications db')
    ∧ (Notification.read n = Some true → n' = n ∧ db' = db).
Proof.
  intros Hwf Hn Hu.
  unfold mark_notification_read. unfold bind at 1, execute at 1.
  rewrite select_owned by done.
  unfold bind at 1, scalar_one_or_none, ret.
  destruct (decide (Notification.read n = Some true)) as [Hread|Hunread].
  - exists n, db.
    assert (Notification.set_read (Some true) n = n) as ->
      by (destruct n; simpl in Hread; by subst).
    split_and!; try done; [|by destruct n].
    cbv [bind commit flush_all refresh_notification execute].
    by rewrite select_by_key by auto using wf_notifications_pk.
  - set (assigned := Notification.set_read (Some true) n).
    assert (notification_ok db assigned) as Hok.
    { pose proof (wf_notification_ok db n Hwf Hn). by destruct n. }
    cbv [bind commit flush_all flush]. rewrite (Is_true_true_1 _ Hok).
    cbv [refresh_notification bind execute notifications set_notifications].
    assert (Notification.id assigned = Notification.id n) as Hid
        by (by destruct n).
    rewrite Hid.
    rewrite (select_updated Notification.id (notifications db) n)
      by (auto using wf_notifications_pk; by destruct n).
    eexists _, _. split; [reflexivity|].
    split_and!.
    + unfold update_row. apply list_elem_of_fmap. exists n.
      split; [|done]. rewrite decide_True; [done|]. by destruct n.
    + by destruct n.
    + intros r Hr Hne. unfold update_row. apply list_elem_of_fmap.
      exists r. split; [|done]. rewrite decide_False; [done|].
      by destruct n.
    + done.
Qed.

Lemma mark_notification_read_owned_witness :
  ∃ n' db',
    mark_notification_read 999 30 Sample.carol Sample.db = (Ok n', db')
    ∧ Notification.read n' = Some true
    ∧ Sample.notification 33 4 false ∈ notifications db'.
Proof.
  destruct (mark_notification_read_owned 999 Sample.db Sample.carol
              (Sample.notification 30 3 false))
    as (n' & db' & Hrun & _ & Hn' & Hothers & _).
  - by_eval.
  - unfold Sample.db, notifications. in_table.
  - reflexivity.
  - exists n', db'. split; [exact Hrun|]. split.
    + apply (f_equal Notification.read) in Hn'. by destruct n'.
    + apply Hothers; [|by vm_compute].
      unfold Sample.db, notifications. in_table.
Defined.

(** X25: a notification of another user is treated as one that does not
    exist.  When no notification with the id belongs to the actor,
    [mark_notification_read] and [delete_notification] answer 404
    "Notification not found", never 403, and change nothing. *)
Theorem notification_not_owned now db current_user notification_id :
  (∀ n, n ∈ notifications db → Notification.id n = notification_id →
        Notification.user_id n ≠ User.id current_user) →
  mark_notification_read now notification_id current_user db
  = (Raise (HTTPException 404 "Notification not found"), db)
  ∧ delete_notification now notification_id current_user db
    = (Raise (HTTPException 404 "Notification not found"), db).
Proof.
  intros Hnone.
  assert (filter (λ n, Notification.id n = notification_id
                       ∧ Notification.user_id n = User.id current_user)
            (notifications db) = []) as Hsel.
  { apply filter_none. intros n Hn [Hid Hu]. by eapply Hnone. }
  split.
  - unfold mark_notification_read. unfold bind at 1, execute at 1.
    by rewrite Hsel.
  - unfold delete_notification. unfold bind at 1, execute at 1.
    by rewrite Hsel.
Qed.

(** Notification 33 is Dave's; Carol can neither mark nor delete it. *)
Lemma notification_not_owned_witness :
  mark_notification_read 999 33 Sample.carol Sample.db
  = (Raise (HTTPException 404 "Notification not found"), Sample.db)
  ∧ delete_notification 999 33 Sample.carol Sample.db
    = (Raise (HTTPException 404 "Notification not found"), Sample.db).
Proof.
  apply (notification_not_owned 999 Sample.db Sample.carol 33).
  intros n Hn Hid. unfold Sample.db, notifications in Hn.
  repeat (apply elem_of_cons in Hn as [->|Hn]; [by vm_compute|]).
  by apply elem_of_nil in Hn.
Defined.

(** X26: the owner deletes one notification and no other: the handler
    confirms, the mailboxes hold the same notifications but that one, and a
    second delete of the same id, or marking it as read, gives 404. *)
Theorem delete_notification_owned now now' db current_user n :
  wf db → n ∈ notifications db →
  Notification.user_id n = User.id current_user →
  delete_notification now (Notification.id n) current_user db
  = (Ok {[ "message" := JString "Notification deleted successfully" ]},
     without_notification n db)
  ∧ (∀ r, r ∈ notifications (without_notification n db)
          ↔ r ∈ notifications db ∧ r ≠ n)
  ∧ delete_notification now' (Notification.id n) current_user
      (without_notification n db)
    = (Raise (HTTPException 404 "Notification not found"),
       without_notification n db)
  ∧ mark_notification_read now' (Notification.id n) current_user
      (without_notification n db)
    = (Raise (HTTPException 404 "Notification not found"),
       without_notification n db).
Proof.
  intros Hwf Hn Hu.
  assert (filter (λ r, Notification.id r = Notification.id n
                       ∧ Notification.user_id r = User.id current_user)
            (notifications (without_notification n db)) = []) as Hgone.
  { apply filter_none. intros r Hr [Hid _].
    unfold without_notification in Hr. cbn [notifications set_notifications] in Hr.
    by apply list_elem_of_filter in Hr as [Hne _]. }
  split_and!.
  - unfold delete_notification. unfold bind at 1, execute at 1.
    by rewrite select_owned by done.
  - intros r. unfold without_notification.
    cbn [notifications set_notifications]. rewrite delete_by_key.
    split; intros [Hr Hne]; split; try done.
    + by intros ->.
    + intros Hk. apply Hne.
      eapply (pk_inj Notification.id); [by apply wf_notifications_pk|done..].
  - unfold delete_notification. unfold bind at 1, execute at 1.
    by rewrite Hgone.
  - unfold mark_notification_read. unfold bind at 1, execute at 1.
    by rewrite Hgone.
Qed.

Lemma delete_notification_owned_witness :
  delete_notification 999 31 Sample.carol Sample.db
  = (Ok {[ "message" := JString "Notification deleted successfully" ]},
     without_notification (Sample.notification 31 3 true) Sample.db)
  ∧ Notification.id
      <$> notifications
            (without_notification (Sample.notification 31 3 true) Sample.db)
    = [30%N; 32%N; 33%N; 34%N; 35%N].
Proof.
  split; [|reflexivity].
  apply (delete_notification_owned 999 1000 Sample.db Sample.carol
           (Sample.notification 31 3 true)).
  - by_eval.
  - unfold Sample.db, notifications. in_table.
  - reflexivity.
Defined.

Lemma mark_all_notifications_read_run now db current_user :
  wf db →
  mark_all_notifications_read now current_user db
  = (Ok {[ "message" :=
             JString ("Marked "
                      +:+ pretty (length (filter (unread_of current_user)
                                            (notifications db)))
                      +:+ " notifications as read") ]},
     all_read now current_user db).
Proof.
  intros Hwf. unfold mark_all_notifications_read.
  unfold bind at 1, execute at 1.
  fold (unread_of current_user).
  unfold bind, commit. rewrite flush_all_notifications; cycle 1.
  { apply Forall_fmap, Forall_forall.
    intros n [_ Hn]%list_elem_of_filter. destruct n.
    by apply (wf_notification_ok db _ Hwf Hn). }
  rewrite foldl_fmap.
  rewrite (update_selected Notification.id (marked_read now)
             (unread_of current_user));
    [done| by intros []|by apply wf_notifications_pk].
Qed.

(** X27: marking all as read is done once.  After
    [mark_all_notifications_read], a second call by the same user answers
    "Marked 0 notifications as read" and leaves the store as the first call
    left it, and the user's page of unread notifications is empty. *)
Theorem mark_all_notifications_read_twice now now' db current_user :
  wf db →
  ∃ db1,
    snd (mark_all_notifications_read now current_user db) = db1
    ∧ mark_all_notifications_read now' current_user db1
      = (Ok {[ "message" := JString "Marked 0 notifications as read" ]}, db1)
    ∧ (∀ skip limit l,
         fst (get_notifications skip limit true current_user db1) = Ok l →
         l = []).
Proof.
  intros Hwf. exists (all_read now current_user db).
  split; [by rewrite mark_all_notifications_read_run|].
  assert (filter (unread_of current_user)
            (notifications (all_read now current_user db)) = []) as Hnone.
  { apply filter_none. intros n Hn. unfold all_read in Hn.
    cbn [notifications set_notifications] in Hn.
    apply list_elem_of_fmap in Hn as (r & -> & Hr).
    case_decide as Hun; [|done]. destruct r. by intros [_ [=]]. }
  split.
  - unfold mark_all_notifications_read. unfold bind at 1, execute at 1.
    match goal with
    | |- context [filter ?P (notifications (all_read now current_user db))] =>
        change (filter P (notifications (all_read now current_user db)))
          with (filter (unread_of current_user)
                  (notifications (all_read now current_user db)))
    end.
    rewrite Hnone.
    by destruct (all_read now current_user db).
  - intros skip limit l.
    unfold get_notifications. unfold bind at 1, execute at 1.
    rewrite list_filter_filter.
    erewrite (list_filter_iff _ (unread_of current_user));
      [|unfold unread_of; intros n; tauto].
    rewrite Hnone. intros [Hsub _]%offset_limit_ok.
    by apply sublist_nil_r in Hsub.
Qed.

Lemma mark_all_notifications_read_twice_witness :
  mark_all_notifications_read 1000 Sample.carol
    (snd (mark_all_notifications_read 999 Sample.carol Sample.db))
  = (Ok {[ "message" := JString "Marked 0 notifications as read" ]},
     snd (mark_all_notifications_read 999 Sample.carol Sample.db)).
Proof.
  destruct (mark_all_notifications_read_twice 999 1000 Sample.db Sample.carol)
    as (db1 & Hdb1 & Hagain & _).
  - by_eval.
  - by rewrite Hdb1.
Defined.

(** ** Reads write nothing, failures write nothing *)

Lemma reads_ret {A} (a : A) : reads (ret a).
Proof. by intros db. Qed.

Lemma reads_raise {A} e : reads (@raise A e).
Proof. by intros db. Qed.

Lemma reads_execute {A} (q : Store → A) : reads (execute q).
Proof. by intros db. Qed.

Lemma reads_bind {A B} (c : M A) (k : A → M B) :
  reads c → (∀ a, reads (k a)) → reads (bind c k).
Proof.
  intros Hc Hk db. unfold bind. specialize (Hc db).
  destruct (c db) as [[a|e] db1]; simpl in Hc; subst; [apply Hk|done].
Qed.

Lemma reads_scalar_one_or_none {A} (rows : list A) :
  reads (scalar_one_or_none rows).
Proof. destruct rows as [|? [|? ?]]; by intros db. Qed.

Lemma reads_offset_limit {A} skip limit (rows : list A) :
  reads (offset_limit skip limit rows).
Proof. unfold offset_limit. case_bool_decide; by intros db. Qed.

Lemma reads_client_id_of project : reads (client_id_of project).
Proof. destruct project; by intros db. Qed.

Ltac reads_step :=
  first
    [ apply reads_ret | apply reads_raise | apply reads_execute
    | apply reads_scalar_one_or_none | apply reads_offset_limit
    | apply reads_client_id_of
    | apply reads_bind; [|intros ?]
    | match goal with
      | |- reads (match ?s with _ => _ end) => destruct s
      end ].

(** X28: the handlers of the GET routes never write: whatever they are
    asked and whether they return or raise, [get_tasks], [get_my_tasks],
    [get_task], [get_projects], [get_project] and [get_notifications] leave
    the store as it was. *)
Theorem get_handlers_read_only db :
  (∀ project_id status skip limit u,
     snd (get_tasks project_id status skip limit u db) = db)
  ∧ (∀ u, snd (get_my_tasks u db) = db)
  ∧ (∀ task_id u, snd (get_task task_id u db) = db)
  ∧ (∀ skip limit u, snd (get_projects skip limit u db) = db)
  ∧ (∀ project_id u, snd (get_project project_id u db) = db)
  ∧ (∀ skip limit unread_only u,
       snd (get_notifications skip limit unread_only u db) = db).
Proof.
  split_and!; intros.
  - assert (reads (get_tasks project_id status skip limit u)) as H
      by (unfold get_tasks; repeat reads_step). apply H.
  - assert (reads (get_my_tasks u)) as H
      by (unfold get_my_tasks; repeat reads_step). apply H.
  - assert (reads (get_task task_id u)) as H
      by (unfold get_task; repeat reads_step). apply H.
  - assert (reads (get_projects skip limit u)) as H
      by (unfold get_projects; repeat reads_step). apply H.
  - assert (reads (get_project project_id u)) as H
      by (unfold get_project; repeat reads_step). apply H.
  - assert (reads (get_notifications skip limit unread_only u)) as H
      by (unfold get_notifications; repeat reads_step). apply H.
Qed.

Lemma rolls_back_reads {A} (c : M A) db : reads c → rolls_back c db.
Proof. intros Hc e _. apply Hc. Qed.

Lemma rolls_back_bind {A B} (c : M A) (k : A → M B) db :
  reads c → (∀ a, fst (c db) = Ok a → rolls_back (k a) db) →
  rolls_back (bind c k) db.
Proof.
  intros Hc Hk e. unfold bind. specialize (Hc db).
  destruct (c db) as [[a|e'] db1]; simpl in Hc; subst; [|done].
  by apply Hk.
Qed.

Lemma rolls_back_commit {B} now ws (k : () → M B) db :
  (∀ db', flush_all now ws db = Some db' → returns (k ()) db') →
  rolls_back (bind (commit now ws) k) db.
Proof.
  intros Hk e. unfold bind, commit.
  destruct (flush_all now ws db) as [db'|] eqn:Hws; [|done].
  intros He. by destruct (Hk db' eq_refl e).
Qed.

Lemma rolls_back_commit_changes {B} now cs (k : () → M B) db :
  (∀ db', apply_changes now cs db = Some db' → returns (k ()) db') →
  rolls_back (bind (commit_changes now cs) k) db.
Proof.
  intros Hk e. unfold bind, commit_changes.
  destruct (apply_changes now cs db) as [db'|] eqn:Hcs; [|done].
  intros He. by destruct (Hk db' eq_refl e).
Qed.

Lemma returns_ret {A} (a : A) db : returns (ret a) db.
Proof. by intros e. Qed.

Lemma returns_refresh_task db x :
  wf db → Task.id x ∈ Task.id <$> tasks db → returns (refresh_task x) db.
Proof.
  intros Hwf Hin e. cbv [refresh_task bind execute].
  destruct (select_pk_cases Task.id (tasks db) (Task.id x))
    as [[Hout _]|(r & _ & _ & ->)]; [by apply wf_tasks_pk|done|done].
Qed.

Lemma returns_refresh_project db p :
  wf db → Project.id p ∈ Project.id <$> projects db →
  returns (refresh_project p) db.
Proof.
  intros Hwf Hin e. cbv [refresh_project bind execute].
  destruct (select_pk_cases Project.id (projects db) (Project.id p))
    as [[Hout _]|(r & _ & _ & ->)]; [by apply wf_projects_pk|done|done].
Qed.

Lemma returns_refresh_notification db n :
  wf db → Notification.id n ∈ Notification.id <$> notifications db →
  returns (refresh_notification n) db.
Proof.
  intros Hwf Hin e. cbv [refresh_notification bind execute].
  destruct (select_pk_cases Notification.id (notifications db)
              (Notification.id n))
    as [[Hout _]|(r & _ & _ & ->)];
    [by apply wf_notifications_pk|done|done].
Qed.

(** What [scalar_one_or_none] returned is the one row of the result. *)
Lemma scalar_one_inv {A} (rows : list A) db x :
  fst (scalar_one_or_none rows db) = Ok (Some x) → rows = [x].
Proof. destruct rows as [|? [|? ?]]; cbv; congruence. Qed.

Lemma selected_task db task_id x :
  filter (λ r, Task.id r = task_id) (tasks db) = [x] →
  x ∈ tasks db ∧ Task.id x = task_id.
Proof.
  intros Hsel.
  assert (x ∈ filter (λ r, Task.id r = task_id) (tasks db)) as Hx
    by (rewrite Hsel; left).
  apply list_elem_of_filter in Hx. tauto.
Qed.

Lemma selected_project db project_id p :
  filter (λ r, Project.id r = project_id) (projects db) = [p] →
  p ∈ projects db ∧ Project.id p = project_id.
Proof.
  intros Hsel.
  assert (p ∈ filter (λ r, Project.id r = project_id) (projects db)) as Hp
    by (rewrite Hsel; left).
  apply list_elem_of_filter in Hp. tauto.
Qed.

(** The UPDATE of a loaded task leaves the ids of the table. *)
Lemma flush_update_task_ids now ws x db db' :
  ws = [] ∨ ws = [UpdateTask x] →
  flush_all now ws db = Some db' →
  Task.id <$> tasks db' = Task.id <$> tasks db.
Proof.
  intros [->| ->]; cbn [flush_all flush].
  - by intros [= <-].
  - destruct (task_ok db x); [|done]. intros [= <-].
    cbn [tasks set_tasks]. by rewrite update_row_keys.
Qed.

Lemma flush_update_project_ids now ws p db db' :
  ws = [] ∨ ws = [UpdateProject p] →
  flush_all now ws db = Some db' →
  Project.id <$> projects db' = Project.id <$> projects db.
Proof.
  intros [->| ->]; cbn [flush_all flush].
  - by intros [= <-].
  - destruct (project_ok db p); [|done]. intros [= <-].
    cbn [projects set_projects]. by rewrite update_row_keys.
Qed.

Lemma flush_update_notification_ids now ws n db db' :
  ws = [] ∨ ws = [UpdateNotification n] →
  flush_all now ws db = Some db' →
  Notification.id <$> notifications db'
  = Notification.id <$> notifications db.
Proof.
  intros [->| ->]; cbn [flush_all flush].
  - by intros [= <-].
  - destruct (notification_ok db n); [|done]. intros [= <-].
    cbn [notifications set_notifications]. by rewrite update_row_keys.
Qed.

Lemma Task_pending_cases x update_data :
  Task_pending x update_data = []
  ∨ Task_pending x update_data
    = [UpdateTask
         (foldl Task_setattr x
            (filter (λ it, Task_changes x it) update_data))].
Proof. unfold Task_pending. destruct (filter _ _); auto. Qed.

Lemma Project_pending_cases p update_data :
  Project_pending p update_data = []
  ∨ Project_pending p update_data
    = [UpdateProject
         (foldl Project_setattr p
            (filter (λ it, Project_changes p it) update_data))].
Proof. unfold Project_pending. destruct (filter _ _); auto. Qed.

Lemma rolls_back_claim_task now task_id u db :
  wf db → rolls_back (claim_task now task_id u) db.
Proof.
  intros Hwf. unfold claim_task.
  destruct (decide (User.role u ≠ "worker"));
    [apply rolls_back_reads, reads_raise|].
  apply rolls_back_bind; [apply reads_execute|]. intros rows [= <-].
  apply rolls_back_bind; [apply reads_scalar_one_or_none|].
  intros [x|] Hx; [|apply rolls_back_reads, reads_raise].
  apply scalar_one_inv, selected_task in Hx as [Hx Hid].
  destruct (decide _); [apply rolls_back_reads, reads_raise|].
  apply rolls_back_commit. intros db' Hflush.
  apply returns_refresh_task; [by eapply flush_all_wf|].
  erewrite flush_update_task_ids; [|by right|done].
  replace (Task.id (Task.set_status _ _)) with (Task.id x) by (by destruct x).
  by apply list_elem_of_fmap_2.
Qed.

Lemma rolls_back_update_task now task_id task_update u db :
  wf db → rolls_back (update_task now task_id task_update u) db.
Proof.
  intros Hwf. unfold update_task.
  apply rolls_back_bind; [apply reads_execute|]. intros rows [= <-].
  apply rolls_back_bind; [apply reads_scalar_one_or_none|].
  intros [x|] Hx; [|apply rolls_back_reads, reads_raise].
  apply scalar_one_inv, selected_task in Hx as [Hx Hid].
  apply rolls_back_bind; [apply reads_execute|]. intros project _.
  apply rolls_back_bind; [repeat reads_step|]. intros foreign _.
  destruct foreign; [apply rolls_back_reads, reads_raise|].
  destruct (bool_decide _); [apply rolls_back_reads, reads_raise|].
  apply rolls_back_commit. intros db' Hflush.
  apply returns_refresh_task; [by eapply flush_all_wf|].
  rewrite (flush_update_task_ids now _ _ db db'
             (Task_pending_cases _ _) Hflush).
  rewrite setattr_loop_task.
  change (Task.id (patched_task task_update x)) with (Task.id x).
  by apply list_elem_of_fmap_2.
Qed.

Lemma rolls_back_update_project now project_id project_update u db :
  wf db → rolls_back (update_project now project_id project_update u) db.
Proof.
  intros Hwf. unfold update_project.
  apply rolls_back_bind; [apply reads_execute|]. intros rows [= <-].
  apply rolls_back_bind; [apply reads_scalar_one_or_none|].
  intros [p|] Hp; [|apply rolls_back_reads, reads_raise].
  apply scalar_one_inv, selected_project in Hp as [Hp Hid].
  destruct (decide _); [apply rolls_back_reads, reads_raise|].
  apply rolls_back_commit. intros db' Hflush.
  apply returns_refresh_project; [by eapply flush_all_wf|].
  rewrite (flush_update_project_ids now _ _ db db'
             (Project_pending_cases _ _) Hflush).
  rewrite setattr_loop_project.
  change (Project.id (patched_project project_update p)) with (Project.id p).
  by apply list_elem_of_fmap_2.
Qed.

Lemma rolls_back_create_task now new_id task_data u db :
  wf db → rolls_back (create_task now new_id task_data u) db.
Proof.
  intros Hwf. unfold create_task.
  apply rolls_back_bind; [apply reads_execute|]. intros rows [= <-].
  apply rolls_back_bind; [apply reads_scalar_one_or_none|].
  intros [p|] Hp; [|apply rolls_back_reads, reads_raise].
  destruct (decide _); [apply rolls_back_reads, reads_raise|].
  apply rolls_back_commit. intros db' Hflush.
  apply returns_refresh_task; [by eapply flush_all_wf|].
  revert Hflush. cbn [flush_all flush].
  destruct (_ && _); [|done]. intros [= <-].
  cbn [tasks set_tasks]. rewrite fmap_app. apply elem_of_app. right.
  by apply list_elem_of_singleton.
Qed.

Lemma rolls_back_create_project now new_id project_data u db :
  wf db → rolls_back (create_project now new_id project_data u) db.
Proof.
  intros Hwf. unfold create_project.
  destruct (decide _); [apply rolls_back_reads, reads_raise|].
  apply rolls_back_commit_changes. intros db' Hflush.
  apply returns_refresh_project; [by eapply apply_changes_wf|].
  revert Hflush. cbn [apply_changes apply_change].
  destruct (_ && _); [|done]. intros [= <-].
  cbn [projects set_projects]. rewrite fmap_app. apply elem_of_app. right.
  by apply list_elem_of_singleton.
Qed.

Lemma rolls_back_delete_task now task_id u db :
  rolls_back (delete_task now task_id u) db.
Proof.
  unfold delete_task.
  apply rolls_back_bind; [apply reads_execute|]. intros rows _.
  apply rolls_back_bind; [apply reads_scalar_one_or_none|].
  intros [x|] _; [|apply rolls_back_reads, reads_raise].
  apply rolls_back_bind; [apply reads_execute|]. intros project _.
  apply rolls_back_bind; [apply reads_client_id_of|]. intros client_id _.
  destruct (decide _); [apply rolls_back_reads, reads_raise|].
  apply rolls_back_commit_changes. intros db' _. apply returns_ret.
Qed.

Lemma rolls_back_delete_project now project_id u db :
  rolls_back (delete_project now project_id u) db.
Proof. intros e. apply delete_project_raise. Qed.

Lemma rolls_back_delete_notification now notification_id u db :
  rolls_back (delete_notification now notification_id u) db.
Proof.
  unfold delete_notification.
  apply rolls_back_bind; [apply reads_execute|]. intros rows _.
  apply rolls_back_bind; [apply reads_scalar_one_or_none|].
  intros [n|] _; [|apply rolls_back_reads, reads_raise].
  apply rolls_back_commit_changes. intros db' _. apply returns_ret.
Qed.

Lemma rolls_back_mark_notification_read now notification_id u db :
  wf db → rolls_back (mark_notification_read now notification_id u) db.
Proof.
  intros Hwf. unfold mark_notification_read.
  apply rolls_back_bind; [apply reads_execute|]. intros rows [= <-].
  apply rolls_back_bind; [apply reads_scalar_one_or_none|].
  intros [n|] Hn; [|apply rolls_back_reads, reads_raise].
  apply scalar_one_inv in Hn.
  assert (n ∈ notifications db) as Hin.
  { assert (n ∈ filter (λ r, Notification.id r = notification_id
                             ∧ Notification.user_id r = User.id u)
                  (notifications db)) as H by (rewrite Hn; left).
    by apply list_elem_of_filter in H as [_ ?]. }
  apply rolls_back_commit. intros db' Hflush.
  apply returns_refresh_notification; [by eapply flush_all_wf|].
  assert ((if decide (Notification.read n = Some true)
           then []
           else [UpdateNotification (Notification.set_read (Some true) n)])
          = []
          ∨ (if decide (Notification.read n = Some true)
             then []
             else [UpdateNotification (Notification.set_read (Some true) n)])
            = [UpdateNotification (Notification.set_read (Some true) n)])
    as Hws by (destruct (decide _); auto).
  rewrite (flush_update_notification_ids now _ _ db db' Hws Hflush).
  replace (Notification.id (Notification.set_read _ n))
    with (Notification.id n) by (by destruct n).
  by apply list_elem_of_fmap_2.
Qed.

Lemma rolls_back_mark_all_notifications_read now u db :
  rolls_back (mark_all_notifications_read now u) db.
Proof.
  unfold mark_all_notifications_read.
  apply rolls_back_bind; [apply reads_execute|]. intros rows _.
  apply rolls_back_commit. intros db' _. apply returns_ret.
Qed.

(** X29: a request that fails changes nothing.  Started from a store that
    satisfies the constraints, each handler that writes either returns, or
    raises (a 4xx answer, or the store's refusal at the commit) and leaves
    the store exactly as it was: no handler raises after a change has been
    committed. *)
Theorem failed_request_changes_nothing db e :
  wf db →
  (∀ now new_id task_data u,
     fst (create_task now new_id task_data u db) = Raise e →
     snd (create_task now new_id task_data u db) = db)
  ∧ (∀ now task_id task_update u,
       fst (update_task now task_id task_update u db) = Raise e →
       snd (update_task now task_id task_update u db) = db)
  ∧ (∀ now task_id u,
       fst (claim_task now task_id u db) = Raise e →
       snd (claim_task now task_id u db) = db)
  ∧ (∀ now task_id u,
       fst (delete_task now task_id u db) = Raise e →
       snd (delete_task now task_id u db) = db)
  ∧ (∀ now new_id project_data u,
       fst (create_project now new_id project_data u db) = Raise e →
       snd (create_project now new_id project_data u db) = db)
  ∧ (∀ now project_id project_update u,
       fst (update_project now project_id project_update u db) = Raise e →
       snd (update_project now project_id project_update u db) = db)
  ∧ (∀ now project_id u,
       fst (delete_project now project_id u db) = Raise e →
       snd (delete_project now project_id u db) = db)
  ∧ (∀ now notification_id u,
       fst (mark_notification_read now notification_id u db) = Raise e →
       snd (mark_notification_read now notification_id u db) = db)
  ∧ (∀ now u,
       fst (mark_all_notifications_read now u db) = Raise e →
       snd (mark_all_notifications_read now u db) = db)
  ∧ (∀ now notification_id u,
       fst (delete_notification now notification_id u db) = Raise e →
       snd (delete_notification now notification_id u db) = db).
Proof.
  intros Hwf. split_and!; intros.
  - by eapply rolls_back_create_task.
  - by eapply rolls_back_update_task.
  - by eapply rolls_back_claim_task.
  - by eapply rolls_back_delete_task.
  - by eapply rolls_back_create_project.
  - by eapply rolls_back_update_project.
  - by eapply rolls_back_delete_project.
  - by eapply rolls_back_mark_notification_read.
  - by eapply rolls_back_mark_all_notifications_read.
  - by eapply rolls_back_delete_notification.
Qed.

(** A worker who is not a registered user cannot be made an assignee: the
    claim is refused at the commit and the task stays open. *)
Lemma failed_request_changes_nothing_witness :
  fst (claim_task 999 20 (Sample.user 9 "zed@example.org" "worker") Sample.db)
  = Raise IntegrityError
  ∧ snd (claim_task 999 20 (Sample.user 9 "zed@example.org" "worker")
           Sample.db) = Sample.db.
Proof.
  split; [reflexivity|].
  assert (wf Sample.db) as Hwf by by_eval.
  destruct (failed_request_changes_nothing Sample.db IntegrityError Hwf)
    as (_ & _ & Hclaim & _).
  by apply Hclaim.
Defined.

(** ** An update that changes nothing *)

(** X30: an update that gives every field it sets a value equal to the one
    the field has is no update: the owner's [update_project] and a permitted
    [update_task] return the row as it is and leave the store, [updated_at]
    included, as it was. *)
Theorem update_without_change now db current_user :
  wf db →
  (∀ p u,
     p ∈ projects db → Project.client_id p = User.id current_user →
     Forall (λ it, ¬ Project_changes p it)
       (ProjectUpdate.dict_exclude_unset u) →
     update_project now (Project.id p) u current_user db = (Ok p, db))
  ∧ (∀ x u,
       x ∈ tasks db → may_update db current_user x →
       Forall (λ it, ¬ Task_changes x it) (TaskUpdate.dict_exclude_unset u) →
       update_task now (Task.id x) u current_user db = (Ok x, db)).
Proof.
  intros Hwf. split.
  - intros p u Hp Hown Hsame. rewrite update_project_run by done.
    rewrite filter_none; [done|]. by apply Forall_forall.
  - intros x u Hx Hmay Hsame. rewrite update_task_permitted_run by done.
    rewrite filter_none; [done|]. by apply Forall_forall.
Qed.

(** Alice sends project 10 its own title and budget. *)
Lemma update_without_change_witness :
  update_project 999 10
    (ProjectUpdate.mk (Given (Some "A")) Unset Unset (Given (Some 10%float))
       Unset)
    Sample.alice Sample.db
  = (Ok (Sample.project 10 1 "A" 10%float), Sample.db).
Proof.
  assert (wf Sample.db) as Hwf by by_eval.
  destruct (update_without_change 999 Sample.db Sample.alice Hwf)
    as [Hproject _].
  apply (Hproject (Sample.project 10 1 "A" 10%float)).
  - unfold Sample.db, projects. in_table.
  - reflexivity.
  - repeat constructor; by vm_compute.
Defined.
